(** * NewsApp: the query builder, the request life cycle and the backend proxy

    A shallow embedding of the parts of the NewsAPI dashboard that carry
    logic: [src/App.js] (the React root component: [getDateFrom],
    [fetchNews], [handleFilterChange] and the render conditions), the
    Express backend that follows it in the same file
    ([buildNewsAPIParams], [handleAPIError], the routes, the
    [NEWS_API_KEY] start-up guard) and the components
    ([src/components/NewsCard.js], [src/components/NewsList.js]).

    Conventions.
    - A JavaScript string is the list of its UTF-16 code units
      ([jsstring]); [length] is the JavaScript [.length].
    - A JavaScript object used as a record or a dictionary is a [gmap] from
      property names to values; a missing property reads as [None]
      ([undefined]).
    - A [Date] is its time value, an integer number of milliseconds since
      the epoch, in UTC.
    - A call that can throw returns a [completion]. A route handler that
      throws ends in a rejected promise without having answered, [None]:
      Express 4 then leaves the request unanswered and Express 5 hands the
      error to the error-handling middleware of the application. *)

From Stdlib Require Import ZArith NArith Lia String Ascii List.
From Stdlib Require Import Decimal DecimalString DecimalZ.
From stdpp Require Import base option list gmap fin_maps.

Local Open Scope Z_scope.

(** ** JavaScript strings *)

Abbreviation jsstring := (list N) (only parsing).

(** The code units of an ASCII literal. *)
Definition js (s : string) : jsstring :=
  map N_of_ascii (list_ascii_of_string s).
Arguments js _%_string.

(** [ToBoolean] on a string: every string but the empty one is truthy. *)
Definition truthy (s : jsstring) : bool :=
  match s with [] => false | _ :: _ => true end.

(** [ToBoolean] on a property that may be [undefined]. *)
Definition truthy_prop (v : option jsstring) : bool :=
  match v with Some s => truthy s | None => false end.

(** [a || b] where [a] is a string or [undefined] and [b] a string. *)
Definition or_else (v : option jsstring) (d : jsstring) : jsstring :=
  match v with
  | Some s => if truthy s then s else d
  | None => d
  end.

(** [ToString] on a property that may be [undefined], as [URLSearchParams]
    applies it to the values it is given. *)
Definition ToString (v : option jsstring) : jsstring :=
  match v with Some s => s | None => js "undefined" end.

(** [x !== 'lit'] on a property that may be [undefined]. *)
Definition strict_ne (v : option jsstring) (lit : jsstring) : bool :=
  match v with
  | Some s => negb (bool_decide (s = lit))
  | None => true
  end.

(** The code units [String.prototype.trim] strips: ECMAScript's WhiteSpace
    and LineTerminator productions. *)
Definition is_whitespace (c : N) : bool :=
  ((9 <=? c) && (c <=? 13))%N
  || (c =? 32)%N || (c =? 160)%N || (c =? 5760)%N
  || ((8192 <=? c) && (c <=? 8202))%N
  || (c =? 8232)%N || (c =? 8233)%N || (c =? 8239)%N
  || (c =? 8287)%N || (c =? 12288)%N || (c =? 65279)%N.

Fixpoint trimStart (s : jsstring) : jsstring :=
  match s with
  | c :: s' => if is_whitespace c then trimStart s' else s
  | [] => []
  end.

Definition trimEnd (s : jsstring) : jsstring :=
  rev (trimStart (rev s)).

Definition trim (s : jsstring) : jsstring := trimEnd (trimStart s).

(** A string with nothing but white space in it, the empty string
    included. *)
Definition whitespace_only (s : jsstring) : Prop :=
  Forall (fun c => is_whitespace c = true) s.

(** [s.substring(start, end)] for integer arguments: both ends are clamped
    to [0 .. s.length] and swapped when out of order. *)
Definition clamp (x len : Z) : Z := Z.min (Z.max x 0) len.

Definition substring (s : jsstring) (start end_ : Z) : jsstring :=
  let len := Z.of_nat (length s) in
  let finalStart := clamp start len in
  let finalEnd := clamp end_ len in
  let from := Z.min finalStart finalEnd in
  let to := Z.max finalStart finalEnd in
  take (Z.to_nat (to - from)) (drop (Z.to_nat from) s).

(** [s.split(sep)[0]] for a one-unit separator: the part of [s] before the
    first [sep], all of [s] when there is none. *)
Fixpoint split_head (sep : N) (s : jsstring) : jsstring :=
  match s with
  | [] => []
  | c :: s' => if (c =? sep)%N then [] else c :: split_head sep s'
  end.

(** The two halves of a surrogate pair. *)
Definition is_high_surrogate (c : N) : bool :=
  ((55296 <=? c) && (c <=? 56319))%N.

Definition is_low_surrogate (c : N) : bool :=
  ((56320 <=? c) && (c <=? 57343))%N.

(** The conversion of a string to a [USVString], which [URLSearchParams]
    applies to every name and value it is given: a surrogate that is not
    half of a pair is replaced by U+FFFD. [paired] says that the code unit
    before was the first half of a pair, of which this one is the second. *)
Fixpoint toUSVString_from (paired : bool) (s : jsstring) : jsstring :=
  match s with
  | [] => []
  | c :: s' =>
      if paired then c :: toUSVString_from false s'
      else if is_high_surrogate c
      then if match s' with d :: _ => is_low_surrogate d | [] => false end
           then c :: toUSVString_from true s'
           else 65533%N :: toUSVString_from false s'
      else if is_low_surrogate c then 65533%N :: toUSVString_from false s'
      else c :: toUSVString_from false s'
  end.

Definition toUSVString (s : jsstring) : jsstring := toUSVString_from false s.

(** A string without a lone surrogate: the conversion leaves it as it is. *)
Definition well_formed (s : jsstring) : Prop := toUSVString s = s.

(** A code unit that is no surrogate and not U+FFFD: the conversion to a
    [USVString] neither changes nor produces it. *)
Definition plain (c : N) : Prop :=
  ((c < 55296)%N \/ (57343 < c)%N) /\ c <> 65533%N.

(** ** Dates: time values and [Date.prototype.toISOString]

    The day and calendar functions of ECMAScript (Day, DaysInYear,
    DayFromYear, YearFromTime, MonthFromTime, DateFromTime, the time-of-day
    fields) on integer time values. [/] and [mod] on [Z] round towards
    minus infinity, as the specification's floor and modulo do. The limit
    of 8.64e15 milliseconds on either side of the epoch, beyond which a
    [Date] is invalid, is far from any clock reading and is not modelled. *)

Module JSDate.

Definition msPerDay : Z := 86400000.
Definition msPerHour : Z := 3600000.
Definition msPerMinute : Z := 60000.
Definition msPerSecond : Z := 1000.

Definition Day (t : Z) : Z := t / msPerDay.

Definition DaysInYear (y : Z) : Z :=
  if negb (y mod 4 =? 0) then 365
  else if negb (y mod 100 =? 0) then 366
  else if negb (y mod 400 =? 0) then 365
  else 366.

Definition DayFromYear (y : Z) : Z :=
  365 * (y - 1970) + (y - 1969) / 4 - (y - 1901) / 100 + (y - 1601) / 400.

Definition TimeFromYear (y : Z) : Z := msPerDay * DayFromYear y.

(** The largest [y] with [TimeFromYear y <= t]: an estimate from the mean
    length of a Gregorian year, corrected by at most one year. *)
Definition YearFromTime (t : Z) : Z :=
  let y0 := 1970 + (400 * Day t) / 146097 in
  if TimeFromYear (y0 + 1) <=? t then y0 + 1
  else if TimeFromYear y0 <=? t then y0
  else y0 - 1.

Definition InLeapYear (t : Z) : Z :=
  if DaysInYear (YearFromTime t) =? 366 then 1 else 0.

Definition DayWithinYear (t : Z) : Z := Day t - DayFromYear (YearFromTime t).

(** January is month 0. *)
Definition MonthFromTime (t : Z) : Z :=
  let d := DayWithinYear t in
  let leap := InLeapYear t in
  if d <? 31 then 0
  else if d <? 59 + leap then 1
  else if d <? 90 + leap then 2
  else if d <? 120 + leap then 3
  else if d <? 151 + leap then 4
  else if d <? 181 + leap then 5
  else if d <? 212 + leap then 6
  else if d <? 243 + leap then 7
  else if d <? 273 + leap then 8
  else if d <? 304 + leap then 9
  else if d <? 334 + leap then 10
  else 11.

Definition DateFromTime (t : Z) : Z :=
  let d := DayWithinYear t in
  let leap := InLeapYear t in
  match MonthFromTime t with
  | 0 => d + 1
  | 1 => d - 30
  | 2 => d - 58 - leap
  | 3 => d - 89 - leap
  | 4 => d - 119 - leap
  | 5 => d - 150 - leap
  | 6 => d - 180 - leap
  | 7 => d - 211 - leap
  | 8 => d - 242 - leap
  | 9 => d - 272 - leap
  | 10 => d - 303 - leap
  | _ => d - 333 - leap
  end.

Definition HourFromTime (t : Z) : Z := (t / msPerHour) mod 24.
Definition MinFromTime (t : Z) : Z := (t / msPerMinute) mod 60.
Definition SecFromTime (t : Z) : Z := (t / msPerSecond) mod 60.
Definition msFromTime (t : Z) : Z := t mod msPerSecond.

(** The code unit of a decimal digit. *)
Definition digit (n : Z) : N := (48 + Z.to_N (n mod 10))%N.

(** [n] in decimal, padded with zeros to two, three, four and six digits;
    [n] is below 100, 1000, 10000 and 1000000 where these are used. *)
Definition pad2 (n : Z) : jsstring := [digit (n / 10); digit n].
Definition pad3 (n : Z) : jsstring := digit (n / 100) :: pad2 n.
Definition pad4 (n : Z) : jsstring := digit (n / 1000) :: pad3 n.
Definition pad6 (n : Z) : jsstring :=
  digit (n / 100000) :: digit (n / 10000) :: pad4 n.

(** The year of the date-time string format: four digits from 0 to 9999,
    otherwise the expanded form, a sign and six digits. *)
Definition isoYear (y : Z) : jsstring :=
  if (0 <=? y) && (y <=? 9999) then pad4 y
  else (if y <? 0 then js "-" else js "+") ++ pad6 (Z.abs y).

(** The part of the ISO string before the [T]. *)
Definition isoDate (y m d : Z) : jsstring :=
  isoYear y ++ js "-" ++ pad2 m ++ js "-" ++ pad2 d.

(** The part of the ISO string from the [T] on. *)
Definition isoTime (t : Z) : jsstring :=
  js "T" ++ pad2 (HourFromTime t) ++ js ":" ++ pad2 (MinFromTime t)
    ++ js ":" ++ pad2 (SecFromTime t) ++ js "." ++ pad3 (msFromTime t)
    ++ js "Z".

(** [new Date(t).toISOString()]. *)
Definition toISOString (t : Z) : jsstring :=
  isoDate (YearFromTime t) (MonthFromTime t + 1) (DateFromTime t)
    ++ isoTime t.

End JSDate.

(** ** NewsCard.js *)

Module NewsCard.

(** [truncateText(text, maxLength)]; [text] is [None] when the article
    field is [null] or [undefined]. *)
Definition truncateText (text : option jsstring) (maxLength : Z) : jsstring :=
  match text with
  | None => []
  | Some t =>
      if negb (truthy t) then []
      else if Z.of_nat (length t) <=? maxLength then t
      else substring t 0 maxLength ++ js "..."
  end.

End NewsCard.

(** ** App.js: filter state *)

(** The [filters] state object: property name to value. The initial state
    of [useState]. *)
Definition initialFilters : gmap (list N) (list N) :=
  <[js "language" := js "en"]>
    (<[js "dateRange" := js "week"]>
      (<[js "source" := js "all"]> ∅)).

(** [handleFilterChange(filterType, value)]: the updater handed to
    [setFilters], [{...prevFilters, [filterType]: value}]. *)
Definition handleFilterChange (filterType value : jsstring)
    (prevFilters : gmap (list N) (list N)) : gmap (list N) (list N) :=
  <[filterType := value]> prevFilters.

(** ** App.js: the date of the [from] parameter *)

(** The [switch] of [getDateFrom]: the number of days to go back. [range]
    is [filters.dateRange], [None] when the property is missing. *)
Definition daysAgo (range : option jsstring) : Z :=
  match range with
  | Some r =>
      if bool_decide (r = js "today") then 1
      else if bool_decide (r = js "week") then 7
      else if bool_decide (r = js "month") then 30
      else 7
  | None => 7
  end.

(** The local [pastDate] of [getDateFrom], as a time value; [now] is the
    clock reading of its [new Date()]. *)
Definition pastDate (now : Z) (range : option jsstring) : Z :=
  now - daysAgo range * 24 * 60 * 60 * 1000.

(** [getDateFrom(range)]: [pastDate.toISOString().split('T')[0]]. *)
Definition getDateFrom (now : Z) (range : option jsstring) : jsstring :=
  split_head 84%N (JSDate.toISOString (pastDate now range)).

(** ** App.js: the request of [fetchNews] *)

(** A [URLSearchParams]: name and value pairs in insertion order. *)
Abbreviation URLSearchParams := (list (list N * list N)) (only parsing).

(** [new URLSearchParams(init)] for a record [init], given as its
    properties in order, the values after [ToString]: every name and value
    is converted to a [USVString]. *)
Definition new_URLSearchParams (init : list (list N * list N))
    : URLSearchParams :=
  map (fun p => (toUSVString p.1, toUSVString p.2)) init.

(** [params.append(name, value)]. *)
Definition URLSearchParams_append (name value : jsstring)
    (params : URLSearchParams) : URLSearchParams :=
  params ++ [(toUSVString name, toUSVString value)].

(** The parameters [fetchNews] builds inside its [try]: the record handed
    to [new URLSearchParams], then [sources] appended unless the source
    filter is ['all']. *)
Definition fetchNews_params (now : Z) (searchQuery : jsstring)
    (filters : gmap (list N) (list N)) : URLSearchParams :=
  let params :=
    new_URLSearchParams
      [ (js "q", searchQuery);
        (js "language", ToString (filters !! js "language"));
        (js "from", getDateFrom now (filters !! js "dateRange"));
        (js "sortBy", js "publishedAt") ] in
  if strict_ne (filters !! js "source") (js "all")
  then URLSearchParams_append (js "sources")
         (ToString (filters !! js "source")) params
  else params.

(** ** [req.query]

    A value of [req.query] as the query parser of Express builds it: a
    string for a name given once, an array for a name given several times
    or with empty brackets, an object for a name given with keys in
    brackets. *)
#[warnings="-register-all"] Inductive qvalue : Type :=
  | QString (s : list N)
  | QArray (items : list qvalue)
  | QObject (fields : list (list N * qvalue)).

(** [ToBoolean] on a property of [req.query]: arrays and objects are
    truthy, the empty ones too. *)
Definition truthy_query (v : option qvalue) : bool :=
  match v with
  | Some (QString s) => truthy s
  | Some _ => true
  | None => false
  end.

(** [x !== 'lit'] on a property of [req.query]: only a string can be
    strictly equal to a string. *)
Definition strict_ne_query (v : option qvalue) (lit : jsstring) : bool :=
  match v with
  | Some (QString s) => negb (bool_decide (s = lit))
  | _ => true
  end.

(** ** The wire between the two halves

    The client serialises the pairs into the query string of
    [GET /api/news] and Express parses it back into [req.query]. The
    client sends every name once (lemma [fetchNews_params_names] below) and
    without brackets, so [req.query] maps each name to its one value, a
    string; the values are well-formed strings, which percent-encoding and
    decoding in UTF-8 return unchanged. The limit of the server on the
    length of a request line is not modelled. *)
Definition req_query (params : URLSearchParams) : gmap (list N) qvalue :=
  QString <$> (list_to_map params : gmap (list N) (list N)).

(** ** The backend *)

Module Backend.

(** A value of the parameter object handed to axios: a string, a number,
    or an array or object of [req.query] handed on as it is. *)
Inductive value : Type :=
  | VStr (s : list N)
  | VNum (n : Z)
  | VOther (v : qvalue).

Definition of_query (v : qvalue) : value :=
  match v with
  | QString s => VStr s
  | _ => VOther v
  end.

(** [params.k = v], for a [v] read from [req.query]. *)
Definition assign (k : jsstring) (v : option qvalue)
    (params : gmap (list N) value) : gmap (list N) value :=
  match v with
  | Some x => <[k := of_query x]> params
  | None => params
  end.

(** [v || 'lit'], for a [v] read from [req.query]. *)
Definition or_else_query (v : option qvalue) (d : jsstring) : value :=
  match v with
  | Some x => if truthy_query v then of_query x else VStr d
  | None => VStr d
  end.

(** [buildNewsAPIParams(filters)]; [NEWS_API_KEY] is the module constant
    read from the environment at start-up. *)
Definition buildNewsAPIParams (NEWS_API_KEY : jsstring)
    (filters : gmap (list N) qvalue) : gmap (list N) value :=
  let params : gmap (list N) value :=
    <[js "pageSize" := VNum 20]> (<[js "apiKey" := VStr NEWS_API_KEY]> ∅) in
  let params :=
    if truthy_query (filters !! js "q")
    then assign (js "q") (filters !! js "q") params
    else params in
  let params :=
    if truthy_query (filters !! js "language")
       && strict_ne_query (filters !! js "language") (js "all")
    then assign (js "language") (filters !! js "language") params
    else params in
  let params :=
    if truthy_query (filters !! js "from")
    then assign (js "from") (filters !! js "from") params
    else params in
  let params :=
    if truthy_query (filters !! js "sources")
       && strict_ne_query (filters !! js "sources") (js "all")
    then assign (js "sources") (filters !! js "sources") params
    else params in
  <[js "sortBy" := or_else_query (filters !! js "sortBy") (js "publishedAt")]>
    params.

(** The body of the upstream answer, [error.response.data], as far as
    [handleAPIError] reads it: [null] or [undefined], of which no property
    can be read, or any other value with its [message] property ([None]:
    it has none). *)
Inductive responseData : Type :=
  | DataNullish
  | DataValue (message : option (list N)).

(** The error axios rejects with: [error.response] is there when the
    upstream API answered, with its HTTP status and its body. *)
Record response : Type := {
  status : Z;
  data : responseData
}.

Record error : Type := {
  error_response : option response
}.

(** The object [handleAPIError] returns. *)
Record errorResponse : Type := {
  error_text : list N;
  code : list N
}.

(** How a call ends: it returns a value or throws a [TypeError]. *)
Inductive completion (A : Type) : Type :=
  | Returns (a : A)
  | Throws.
Arguments Returns {A} a.
Arguments Throws {A}.

(** [handleAPIError(error)]. The [message] is read off the body before
    the [switch], for every status. *)
Definition handleAPIError (e : error) : completion errorResponse :=
  match error_response e with
  | Some r =>
      let status := status r in
      match data r with
      | DataNullish => Throws
      | DataValue data_message =>
          let message := or_else data_message (js "Unknown error") in
          Returns
            match status with
            | 401 =>
                {| error_text :=
                     js "Invalid API key. Please check your NewsAPI key.";
                   code := js "INVALID_API_KEY" |}
            | 429 =>
                {| error_text :=
                     js "API rate limit exceeded. Free tier allows 100 requests per day.";
                   code := js "RATE_LIMIT_EXCEEDED" |}
            | 426 =>
                {| error_text := js "This request requires a paid NewsAPI plan.";
                   code := js "UPGRADE_REQUIRED" |}
            | 500 =>
                {| error_text :=
                     js "NewsAPI server error. Please try again later.";
                   code := js "SERVER_ERROR" |}
            | _ => {| error_text := message; code := js "API_ERROR" |}
            end
      end
  | None =>
      Returns
        {| error_text :=
             js "Unable to connect to NewsAPI. Check your internet connection.";
           code := js "NETWORK_ERROR" |}
  end.



End Backend.

(** ** The query builder, end to end

    What the upstream API is called with for a search: the client's
    parameters, carried over the wire and rebuilt by the
    [GET /api/news] handler. *)
Definition queryBuilder (NEWS_API_KEY : jsstring) (now : Z)
    (query : jsstring) (filters : gmap (list N) (list N))
    : gmap (list N) Backend.value :=
  Backend.buildNewsAPIParams NEWS_API_KEY
    (req_query (fetchNews_params now query filters)).

(** ** App.js: state, effects and rendering *)

(** An article as the upstream API sends it; optional fields are [None]
    when [null] or missing. *)
Record Article : Type := {
  title : option (list N);
  description : option (list N);
  url : list N;
  urlToImage : option (list N);
  source_name : list N;
  publishedAt : list N;
  author : option (list N)
}.

(** The state variables of [App] that the search touches. [error] is
    [None] for [null]. *)
Record AppState : Type := {
  articles : list Article;
  loading : bool;
  error : option (list N);
  searchQuery : list N;
  filters : gmap (list N) (list N)
}.

(** The values given to [useState]. *)
Definition initialState : AppState :=
  {| articles := [];
     loading := false;
     error := None;
     searchQuery := js "technology";
     filters := initialFilters |}.

(** The JSON body of the backend's answer, as [fetchNews] reads it:
    [data.status === 'success'] with [data.articles], or anything else with
    [data.error]. *)
Inductive body : Type :=
  | BodySuccess (data_articles : list Article)
  | BodyOther (data_error : option (list N)).

(** How the awaited [fetch] and [response.json()] end. *)
Inductive outcome : Type :=
  | Resolved (data : body)
  | Rejected.

(** The component together with the network around it: the calls to
    [/api/news] issued so far, newest first, each with the number of the
    [fetchNews] invocation that made it, and the invocations still awaiting
    their answer. *)
Record World : Type := {
  app : AppState;
  issued : list (nat * list (list N * list N));
  pending : list nat
}.

Definition initialWorld : World :=
  {| app := initialState; issued := []; pending := [] |}.

(** [fetchNews], up to the first [await]: spinner on, error cleared, the
    request issued. *)
Definition fetchNews_begin (now : Z) (w : World) : World :=
  let st := app w in
  let id := length (issued w) in
  {| app := {| articles := articles st;
               loading := true;
               error := None;
               searchQuery := searchQuery st;
               filters := filters st |};
     issued := (id, fetchNews_params now (searchQuery st) (filters st))
                 :: issued w;
     pending := id :: pending w |}.

(** [fetchNews], from the answer on: the [if] on [data.status], the
    [catch] and the [finally]. *)
Definition fetchNews_settle (o : outcome) (st : AppState) : AppState :=
  let '(articles', error') :=
    match o with
    | Resolved (BodySuccess data_articles) =>
        (data_articles,
         if (length data_articles =? 0)%nat
         then Some (js "No articles found. Try different search terms or filters.")
         else error st)
    | Resolved (BodyOther data_error) =>
        (articles st, Some (or_else data_error (js "Failed to fetch news")))
    | Rejected =>
        (articles st,
         Some (js "Failed to connect to the server. Make sure the backend is running on port 5000."))
    end in
  {| articles := articles';
     loading := false;
     error := error';
     searchQuery := searchQuery st;
     filters := filters st |}.



(** The effect with dependencies [[searchQuery, filters]]. *)
Definition fetch_effect (now : Z) (w : World) : World :=
  if truthy (trim (searchQuery (app w))) then fetchNews_begin now w else w.

Definition with_app (st : AppState) (w : World) : World :=
  {| app := st; issued := issued w; pending := pending w |}.

(** What can happen to the mounted component. [now] is the clock reading
    of the [new Date()] the effect would make. *)
Inductive event : Type :=
  | Mount (now : Z)
  | SearchChange (now : Z) (value : list N)
  | FilterChange (now : Z) (filterType value : list N)
  | Settle (id : nat) (o : outcome).

(** One event. Setting the query to the string it already is changes no
    dependency and runs no effect; [setFilters] always installs a new
    object, so the effect runs; an answer is handled by the invocation that
    awaits it, whatever has happened since. *)
Definition step (w : World) (e : event) : World :=
  match e with
  | Mount now => fetch_effect now w
  | SearchChange now value =>
      if bool_decide (value = searchQuery (app w)) then w
      else
        let st := app w in
        fetch_effect now
          (with_app {| articles := articles st;
                       loading := loading st;
                       error := error st;
                       searchQuery := value;
                       filters := filters st |} w)
  | FilterChange now filterType value =>
      let st := app w in
      fetch_effect now
        (with_app {| articles := articles st;
                     loading := loading st;
                     error := error st;
                     searchQuery := searchQuery st;
                     filters := handleFilterChange filterType value (filters st) |} w)
  | Settle id o =>
      if bool_decide (id ∈ pending w)
      then {| app := fetchNews_settle o (app w);
              issued := issued w;
              pending := filter (fun i => i <> id) (pending w) |}
      else w
  end.

Definition run (w : World) (es : list event) : World := foldl step w es.

(** What the results section of the JSX shows. *)
Inductive panel : Type :=
  | LoadingSpinner
  | ErrorMessage (text : list N)
  | ResultsAndNewsList (shown : list Article)
  | WelcomeMessage.

Definition render (st : AppState) : list panel :=
  (if loading st then [LoadingSpinner] else [])
  ++ (if truthy_prop (error st) && negb (loading st)
      then [ErrorMessage (default [] (error st))] else [])
  ++ (if negb (loading st) && negb (truthy_prop (error st))
         && (0 <? length (articles st))%nat
      then [ResultsAndNewsList (articles st)] else [])
  ++ (if negb (loading st) && negb (truthy_prop (error st))
         && (length (articles st) =? 0)%nat && negb (truthy (searchQuery st))
      then [WelcomeMessage] else []).

(** The spec's [RequestResult], read off the state variables the way the
    render conditions read them: the spinner is [Loading], the error
    message is [Failure], a shown list is [Success], and nothing of these
    is [Idle]. *)
Inductive RequestResult : Type :=
  | Idle
  | Loading
  | Success (shown : list Article)
  | Failure (message : list N).

Definition requestResult (st : AppState) : RequestResult :=
  if loading st then Loading
  else if truthy_prop (error st) then Failure (default [] (error st))
  else if (0 <? length (articles st))%nat then Success (articles st)
  else Idle.

(** An issued call whose [q] parameter is not blank. *)
Definition carries_query (r : nat * list (list N * list N)) : Prop :=
  exists q : list N, (js "q", q) ∈ r.2 /\ ~ whitespace_only q.

(** Two articles to run the component on. *)
Definition article_one : Article :=
  {| title := Some (js "Older news"); description := None;
     url := js "https://example.org/1"; urlToImage := None;
     source_name := js "Example"; publishedAt := js "2026-10-30T08:00:00Z";
     author := None |}.

Definition article_two : Article :=
  {| title := Some (js "Actualites"); description := None;
     url := js "https://example.org/2"; urlToImage := None;
     source_name := js "Exemple"; publishedAt := js "2026-11-01T08:00:00Z";
     author := None |}.

(** ** The Gregorian calendar, one day after another

    The calendar as it is taught, against which the date functions above
    are checked: leap years, month lengths, and the day that follows a
    day. Months and days count from 1. *)

Record civil : Type := { year : Z; month : Z; day : Z }.

Definition is_leap_year (y : Z) : bool :=
  (y mod 4 =? 0) && (negb (y mod 100 =? 0) || (y mod 400 =? 0)).

Definition days_in_month (y m : Z) : Z :=
  match m with
  | 2 => if is_leap_year y then 29 else 28
  | 4 | 6 | 9 | 11 => 30
  | _ => 31
  end.

Definition valid_civil (c : civil) : Prop :=
  1 <= month c <= 12 /\ 1 <= day c <= days_in_month (year c) (month c).

Definition next_day (c : civil) : civil :=
  if day c <? days_in_month (year c) (month c)
  then {| year := year c; month := month c; day := day c + 1 |}
  else if month c <? 12
  then {| year := year c; month := month c + 1; day := 1 |}
  else {| year := year c + 1; month := 1; day := 1 |}.

(** The day before a day. *)
Definition prev_day (c : civil) : civil :=
  if 1 <? day c
  then {| year := year c; month := month c; day := day c - 1 |}
  else if 1 <? month c
  then {| year := year c; month := month c - 1;
          day := days_in_month (year c) (month c - 1) |}
  else {| year := year c - 1; month := 12; day := 31 |}.

(** The UTC calendar date of a time value, as [toISOString] prints it. *)
Definition civil_of_time (t : Z) : civil :=
  {| year := JSDate.YearFromTime t;
     month := JSDate.MonthFromTime t + 1;
     day := JSDate.DateFromTime t |}.

(** [YYYY-MM-DD]: ten code units, digits but for the two hyphens. *)
Definition is_digit (c : N) : bool := ((48 <=? c) && (c <=? 57))%N.

Definition is_YYYY_MM_DD (s : jsstring) : bool :=
  match s with
  | [y1; y2; y3; y4; h1; m1; m2; h2; d1; d2] =>
      is_digit y1 && is_digit y2 && is_digit y3 && is_digit y4
      && (h1 =? 45)%N && is_digit m1 && is_digit m2
      && (h2 =? 45)%N && is_digit d1 && is_digit d2
  | _ => false
  end.

(** The calendar date a [YYYY-MM-DD] string reads as. *)
Definition digit_value (c : N) : Z := Z.of_N c - 48.

Definition read_YYYY_MM_DD (s : jsstring) : option civil :=
  match s with
  | [y1; y2; y3; y4; _; m1; m2; _; d1; d2] =>
      if is_YYYY_MM_DD s
      then Some {| year := 1000 * digit_value y1 + 100 * digit_value y2
                           + 10 * digit_value y3 + digit_value y4;
                   month := 10 * digit_value m1 + digit_value m2;
                   day := 10 * digit_value d1 + digit_value d2 |}
      else None
  | _ => None
  end.

(** ** Reading the upstream parameters

    What a parameter of the request becomes in the upstream call: a
    string is dropped when empty and, for a parameter with the ['all']
    sentinel, when it is ['all']; any other value that is there, string,
    array or object, is handed on as it is. *)
Definition passed_on (sentinel : bool) (v : option qvalue)
    : option Backend.value :=
  match v with
  | Some (QString s) =>
      if truthy s && negb (sentinel && bool_decide (s = js "all"))
      then Some (Backend.VStr s)
      else None
  | Some x => Some (Backend.VOther x)
  | None => None
  end.

(** The names the upstream parameter object can carry. *)
Definition upstream_names : list (list N) :=
  [js "q"; js "language"; js "from"; js "sources"; js "sortBy";
   js "pageSize"; js "apiKey"].

(** The filter a search is made with: the language and the source it is
    restricted to ([None]: not restricted) and the calendar date it starts
    from ([None]: no date, or none that can be read). *)
Record EffectiveFilter : Type := {
  eff_language : option (list N);
  eff_from : option civil;
  eff_sources : option (list N)
}.

(** A filter value restricts the search unless it is the ['all'] sentinel. *)
Definition effective (v : jsstring) : option jsstring :=
  if bool_decide (v = js "all") then None else Some v.

(** The number of days a date range goes back, by the table of the spec:
    one for ['today'], seven for ['week'], thirty for ['month'], and seven
    for a value that is none of these. *)
Definition range_days (dateRange : jsstring) : nat :=
  if bool_decide (dateRange = js "today") then 1
  else if bool_decide (dateRange = js "month") then 30
  else 7.

(** The filter a [FilterState] with these three fields denotes on the day
    [today]: its date lies [range_days] days back in the calendar. *)
Definition denoted_filter (today : civil) (language dateRange source : jsstring)
    : EffectiveFilter :=
  {| eff_language := effective language;
     eff_from := Some (Nat.iter (range_days dateRange) prev_day today);
     eff_sources := effective source |}.

Definition string_param (v : option Backend.value) : option jsstring :=
  match v with
  | Some (Backend.VStr s) => Some s
  | _ => None
  end.

(** The filter the upstream API is called with: the language and the
    sources of its parameters, and the calendar date its [from] reads
    as. *)
Definition upstream_filter (params : gmap (list N) Backend.value)
    : EffectiveFilter :=
  {| eff_language := string_param (params !! js "language");
     eff_from := string_param (params !! js "from") ≫= read_YYYY_MM_DD;
     eff_sources := string_param (params !! js "sources") |}.

(** ** The error taxonomy of the spec

    The kinds of failure the spec names, the table from the upstream HTTP
    status ([None]: no response was received) to the kind, and the [code]
    string that stands for each kind on the wire. *)
Inductive ErrorKind : Type :=
  | InvalidCredential
  | QuotaExceeded
  | PlanRequired
  | UpstreamUnavailable
  | UpstreamError
  | NetworkUnreachable.

Definition error_kind (upstream_status : option Z) : ErrorKind :=
  match upstream_status with
  | Some 401 => InvalidCredential
  | Some 429 => QuotaExceeded
  | Some 426 => PlanRequired
  | Some 500 => UpstreamUnavailable
  | Some _ => UpstreamError
  | None => NetworkUnreachable
  end.

Definition kind_code (k : ErrorKind) : jsstring :=
  match k with
  | InvalidCredential => js "INVALID_API_KEY"
  | QuotaExceeded => js "RATE_LIMIT_EXCEEDED"
  | PlanRequired => js "UPGRADE_REQUIRED"
  | UpstreamUnavailable => js "SERVER_ERROR"
  | UpstreamError => js "API_ERROR"
  | NetworkUnreachable => js "NETWORK_ERROR"
  end.

(** ** Numbers in template literals *)

(** [String(n)] for an integer [n], as a template literal prints it:
    decimal digits, with a minus sign before a negative number. *)
Definition Number_toString (n : Z) : jsstring :=
  js (NilZero.string_of_int (Z.to_int n)).

(** ** NewsCard.js and NewsList.js: what a card and the list show *)

Module Card.
Section Card.

(** The built-ins the card leans on, left open: [new Date(dateString)]
    as a time value ([None] for an invalid date), and the local
    [formatDate], which prints a date with [toLocaleDateString] in the
    reader's locale and time zone. [now] is the clock reading of
    [getTimeAgo]'s [new Date()]. Differences of time values are far below
    2^53, so the floor of the floating-point quotient is the integer
    quotient. *)
Variable parseDate : list N -> option Z.
Variable formatDate : list N -> list N.
Variable now : Z.

(** The template [`${n} unit${n !== 1 ? 's' : ''} ago`]. *)
Definition ago (n : Z) (unit : jsstring) : jsstring :=
  Number_toString n ++ js " " ++ unit
    ++ (if negb (n =? 1) then js "s" else []) ++ js " ago".

(** [getTimeAgo(dateString)]. With an invalid date every difference is
    [NaN], every comparison is false and the last branch is taken. *)
Definition getTimeAgo (dateString : jsstring) : jsstring :=
  match parseDate dateString with
  | Some publishDate =>
      let diffMs := now - publishDate in
      let diffMins := diffMs / 60000 in
      let diffHours := diffMs / 3600000 in
      let diffDays := diffMs / 86400000 in
      if diffMins <? 60 then ago diffMins (js "minute")
      else if diffHours <? 24 then ago diffHours (js "hour")
      else if diffDays <? 7 then ago diffDays (js "day")
      else formatDate dateString
  | None => formatDate dateString
  end.

(** What the JSX of a card puts on the page; a block that is left out is
    [None]. *)
Record CardView : Type := {
  card_image : option (list N);
  card_source : list N;
  card_time : list N;
  card_title : list N;
  card_description : option (list N);
  card_author : option (list N);
  card_href : list N
}.

(** [NewsCard({ article })]. *)
Definition NewsCard (article : Article) : CardView :=
  {| card_image :=
       if truthy_prop (urlToImage article) then urlToImage article else None;
     card_source := source_name article;
     card_time := getTimeAgo (publishedAt article);
     card_title := NewsCard.truncateText (title article) 100;
     card_description :=
       if truthy_prop (description article)
       then Some (NewsCard.truncateText (description article) 150)
       else None;
     card_author :=
       if truthy_prop (author article) then author article else None;
     card_href := url article |}.

(** What [NewsList] returns: the empty state, or the grid of cards, each
    with its React key. *)
Inductive NewsListView : Type :=
  | NewsListEmpty
  | NewsListGrid (cards : list (list N * CardView)).

(** The key of the card at [index]: [`${article.url}-${index}`]. *)
Definition card_key (index : nat) (article : Article) : jsstring :=
  url article ++ js "-" ++ Number_toString (Z.of_nat index).

(** [NewsList({ articles })]; [None] is a missing [articles] prop. *)
Definition NewsList (articles : option (list Article)) : NewsListView :=
  match articles with
  | None => NewsListEmpty
  | Some l =>
      if (length l =? 0)%nat then NewsListEmpty
      else NewsListGrid
             (imap (fun index article =>
                      (card_key index article, NewsCard article)) l)
  end.

End Card.
End Card.

(** ** The backend routes *)

Module Routes.

(** How the axios call to the upstream API ends: resolved, with the
    [articles] and [totalResults] of [response.data] ([None] when the body
    lacks them), or rejected with an error. *)
Inductive upstream : Type :=
  | UpstreamResolved (data_articles : option (list Article))
      (data_totalResults : option Z)
  | UpstreamRejected (e : Backend.error).

(** The JSON body a route answers with. *)
Inductive responseBody : Type :=
  | SuccessBody (totalResults : option Z) (articles : list Article)
  | ErrorBody (e : Backend.errorResponse).

Record httpResponse : Type := {
  http_status : Z;
  http_body : responseBody
}.

(** The status codes an HTTP server can send: three digits. With any
    other, sending the answer throws a [RangeError]. *)
Definition valid_status (code : Z) : bool := (100 <=? code) && (code <=? 999).

(** The status codes whose answer goes out without a body, whatever
    [res.json] was given: the informational ones, 204, 205 and 304. *)
Definition bodyless (code : Z) : bool :=
  (code <? 200) || (code =? 204) || (code =? 205) || (code =? 304).

(** The [catch] block of a route:
    [res.status(error.response?.status || 500).json({status: 'error', ...errorResponse})].
    When [handleAPIError] throws, or the status cannot be sent, the handler
    ends in a rejected promise without having answered ([None]). *)
Definition catch_block (e : Backend.error) : option httpResponse :=
  match Backend.handleAPIError e with
  | Backend.Returns errorResponse =>
      let code :=
        match Backend.error_response e with
        | Some r => if Backend.status r =? 0 then 500 else Backend.status r
        | None => 500
        end in
      if valid_status code
      then Some {| http_status := code; http_body := ErrorBody errorResponse |}
      else None
  | Backend.Throws => None
  end.

(** The [try] block after the upstream call: reading
    [response.data.articles.length] for the log throws a [TypeError] when
    the body has no [articles], and that error, which has no [response],
    goes to the [catch] block like any other. *)
Definition relay (u : upstream) : option httpResponse :=
  match u with
  | UpstreamResolved (Some articles) totalResults =>
      Some {| http_status := 200;
              http_body := SuccessBody totalResults articles |}
  | UpstreamResolved None _ =>
      catch_block {| Backend.error_response := None |}
  | UpstreamRejected e => catch_block e
  end.

(** [GET /api/news]; [everything] is the upstream endpoint. *)
Definition news (NEWS_API_KEY : jsstring) (query : gmap (list N) qvalue)
    (everything : gmap (list N) Backend.value -> upstream)
    : option httpResponse :=
  relay (everything (Backend.buildNewsAPIParams NEWS_API_KEY query)).

(** The parameter object [GET /api/top-headlines] builds. *)
Definition topHeadlines_params (NEWS_API_KEY : jsstring)
    (query : gmap (list N) qvalue) : gmap (list N) Backend.value :=
  let params : gmap (list N) Backend.value :=
    <[js "pageSize" := Backend.VNum 20]>
      (<[js "apiKey" := Backend.VStr NEWS_API_KEY]> ∅) in
  let params :=
    if truthy_query (query !! js "country")
    then Backend.assign (js "country") (query !! js "country") params
    else params in
  let params :=
    if truthy_query (query !! js "category")
    then Backend.assign (js "category") (query !! js "category") params
    else params in
  if truthy_query (query !! js "q")
  then Backend.assign (js "q") (query !! js "q") params
  else params.

(** [GET /api/top-headlines]. *)
Definition topHeadlines (NEWS_API_KEY : jsstring)
    (query : gmap (list N) qvalue)
    (top_headlines : gmap (list N) Backend.value -> upstream)
    : option httpResponse :=
  relay (top_headlines (topHeadlines_params NEWS_API_KEY query)).

End Routes.

(** The body [fetchNews] gets from [response.json()] for an answer of the
    backend that carries its body: the articles of a success, the [error]
    text otherwise. *)
Definition client_body (r : Routes.httpResponse) : body :=
  match Routes.http_body r with
  | Routes.SuccessBody _ articles => BodySuccess articles
  | Routes.ErrorBody e => BodyOther (Some (Backend.error_text e))
  end.

(** How the awaited [fetch] and [response.json()] of [fetchNews] end for
    an answer of the backend: an answer without a body makes
    [response.json()] reject. What [fetch] does with an informational
    status as the last word of the server is left open ([None]). *)
Definition answer_outcome (r : Routes.httpResponse) : option outcome :=
  if Routes.http_status r <? 200 then None
  else if Routes.bodyless (Routes.http_status r) then Some Rejected
  else Some (Resolved (client_body r)).

(** A search from the press of a key to the answer: the request of
    [fetchNews], the [GET /api/news] route, the upstream call. [None]:
    the handler of the route does not answer, or its answer is one whose
    handling is left open. *)
Definition search_answer (NEWS_API_KEY : jsstring) (now : Z)
    (query : jsstring) (filters : gmap (list N) (list N))
    (everything : gmap (list N) Backend.value -> Routes.upstream)
    : option outcome :=
  Routes.news NEWS_API_KEY
    (req_query (fetchNews_params now query filters)) everything
  ≫= answer_outcome.

(** ** App.js: the theme *)

Module Theme.

(** The page around the component as far as the theme goes: the class
    names on [document.body] and [localStorage]. *)
Record Page : Type := {
  classList : gset (list N);
  localStorage : gmap (list N) (list N)
}.

(** [JSON.stringify] of a boolean. *)
Definition JSON_stringify (b : bool) : jsstring :=
  if b then js "true" else js "false".

(** The white space JSON allows around a value: tab, line feed, carriage
    return and space. *)
Definition json_whitespace (c : N) : bool :=
  (c =? 9)%N || (c =? 10)%N || (c =? 13)%N || (c =? 32)%N.

Fixpoint json_skip (s : jsstring) : jsstring :=
  match s with
  | c :: s' => if json_whitespace c then json_skip s' else s
  | [] => []
  end.

(** [JSON.parse] as far as booleans go: the text is a boolean exactly when
    it is [true] or [false] with white space around it; on any other text
    [JSON.parse] returns another kind of value or throws ([None]). *)
Definition JSON_parse (s : jsstring) : option bool :=
  let value := rev (json_skip (rev (json_skip s))) in
  if bool_decide (value = js "true") then Some true
  else if bool_decide (value = js "false") then Some false
  else None.

(** The initialiser of the [darkMode] state:
    [savedMode ? JSON.parse(savedMode) : false]. *)
Definition initialDarkMode (p : Page) : option bool :=
  match localStorage p !! js "darkMode" with
  | Some savedMode =>
      if truthy savedMode then JSON_parse savedMode else Some false
  | None => Some false
  end.

(** The effect with dependency [[darkMode]]. *)
Definition darkMode_effect (darkMode : bool) (p : Page) : Page :=
  {| classList :=
       if darkMode then {[js "dark-mode"]} ∪ classList p
       else classList p ∖ {[js "dark-mode"]};
     localStorage :=
       <[js "darkMode" := JSON_stringify darkMode]> (localStorage p) |}.

(** [toggleDarkMode]: the updater [prevMode => !prevMode]. *)
Definition toggleDarkMode (prevMode : bool) : bool := negb prevMode.

(** The state after mounting with the mode [darkMode] and pressing the
    toggle [n] times, the effect running after each render. *)
Fixpoint toggled (n : nat) (darkMode : bool) (p : Page) : bool * Page :=
  match n with
  | O => (darkMode, darkMode_effect darkMode p)
  | S n' =>
      let '(mode, p') := toggled n' darkMode p in
      (toggleDarkMode mode, darkMode_effect (toggleDarkMode mode) p')
  end.

End Theme.

(** The names the [Filters] component passes to [onFilterChange]. *)
Definition filter_names : list (list N) :=
  [js "dateRange"; js "language"; js "source"].

(** An event as the components raise it: a filter change names one of the
    three filters. *)
Definition from_components (e : event) : Prop :=
  match e with
  | FilterChange _ filterType _ => filterType ∈ filter_names
  | _ => True
  end.

(** What the bookkeeping of the calls keeps true: the calls are numbered
    in the order they were issued, an invocation that awaits its answer
    awaits it once and for a call that was issued, and the spinner is on
    only while some invocation awaits its answer. *)
Definition consistent (w : World) : Prop :=
  (issued w).*1 = rev (seq 0 (length (issued w)))
  /\ (forall id, id ∈ pending w -> (id < length (issued w))%nat)
  /\ NoDup (pending w)
  /\ (loading (app w) = true -> pending w <> []).

(** * Properties *)

(** ** The date functions agree with the calendar *)

Section Calendar.
Import JSDate.

Lemma Day_succ t : Day (t + msPerDay) = Day t + 1.
Proof. unfold Day, msPerDay. Z.div_mod_to_equations. lia. Qed.

Lemma Day_shift t n : Day (t - n * 24 * 60 * 60 * 1000) = Day t - n.
Proof. unfold Day, msPerDay. Z.div_mod_to_equations. lia. Qed.

Lemma TimeFromYear_leb y t : (TimeFromYear y <=? t) = (DayFromYear y <=? Day t).
Proof.
  unfold TimeFromYear, Day, msPerDay.
  generalize (DayFromYear y). intros a.
  destruct (Z.leb_spec (86400000 * a) t), (Z.leb_spec a (t / 86400000));
    try reflexivity; Z.div_mod_to_equations; lia.
Qed.

Lemma DayFromYear_succ y : DayFromYear (y + 1) = DayFromYear y + DaysInYear y.
Proof.
  unfold DayFromYear, DaysInYear.
  repeat match goal with |- context [?a =? ?b] => destruct (Z.eqb_spec a b) end;
    cbn [negb]; Z.div_mod_to_equations; lia.
Qed.

Lemma DayFromYear_mono y y' : y <= y' -> DayFromYear y <= DayFromYear y'.
Proof. unfold DayFromYear. intros. Z.div_mod_to_equations. lia. Qed.

Lemma year_bracket d :
  DayFromYear (1970 + (400 * d) / 146097 - 1) <= d
    < DayFromYear (1970 + (400 * d) / 146097 + 2).
Proof. unfold DayFromYear. Z.div_mod_to_equations. lia. Qed.

Lemma YearFromTime_spec t :
  DayFromYear (YearFromTime t) <= Day t < DayFromYear (YearFromTime t + 1).
Proof.
  unfold YearFromTime. cbv zeta. rewrite !TimeFromYear_leb.
  pose proof (year_bracket (Day t)) as Hb.
  set (y0 := 1970 + 400 * Day t / 146097) in *.
  destruct (Z.leb_spec (DayFromYear (y0 + 1)) (Day t)).
  - replace (y0 + 1 + 1) with (y0 + 2) by lia. lia.
  - destruct (Z.leb_spec (DayFromYear y0) (Day t)).
    + lia.
    + replace (y0 - 1 + 1) with y0 by lia. lia.
Qed.

Lemma YearFromTime_unique t y :
  DayFromYear y <= Day t < DayFromYear (y + 1) -> YearFromTime t = y.
Proof.
  intros Hy. pose proof (YearFromTime_spec t) as Hs.
  destruct (Z.lt_trichotomy (YearFromTime t) y) as [Hlt | [Heq | Hgt]]; [|exact Heq|].
  - pose proof (DayFromYear_mono (YearFromTime t + 1) y). lia.
  - pose proof (DayFromYear_mono (y + 1) (YearFromTime t)). lia.
Qed.

(** [YearFromTime] is what ECMAScript defines it to be: the largest year
    that starts at or before [t]. *)
Lemma YearFromTime_largest t :
  TimeFromYear (YearFromTime t) <= t
  /\ forall y, TimeFromYear y <= t -> y <= YearFromTime t.
Proof.
  pose proof (YearFromTime_spec t) as [Hlo Hhi]. split.
  - apply Z.leb_le. rewrite TimeFromYear_leb. apply Z.leb_le, Hlo.
  - intros y Hy. apply Z.leb_le in Hy. rewrite TimeFromYear_leb in Hy.
    apply Z.leb_le in Hy. apply Z.nlt_ge. intros Hlt.
    pose proof (DayFromYear_mono (YearFromTime t + 1) y). lia.
Qed.

Lemma DaysInYear_leap y : DaysInYear y = if is_leap_year y then 366 else 365.
Proof.
  unfold DaysInYear, is_leap_year.
  destruct (y mod 4 =? 0), (y mod 100 =? 0), (y mod 400 =? 0); reflexivity.
Qed.

Lemma InLeapYear_leap t :
  InLeapYear t = if is_leap_year (YearFromTime t) then 1 else 0.
Proof.
  unfold InLeapYear. rewrite DaysInYear_leap.
  destruct (is_leap_year (YearFromTime t)); reflexivity.
Qed.

Lemma DayWithinYear_range t :
  0 <= DayWithinYear t < DaysInYear (YearFromTime t).
Proof.
  unfold DayWithinYear. pose proof (YearFromTime_spec t) as Hs.
  rewrite DayFromYear_succ in Hs. lia.
Qed.

(** The month and the day of the month from the day within the year. *)
Ltac eval_month :=
  repeat match goal with
         | |- context [0 + 1] => change (0 + 1) with 1
         | |- context [Z.pos ?p + 1] =>
             let v := eval vm_compute in (Z.pos p + 1) in
             change (Z.pos p + 1) with v
         | H : context [0 + 1] |- _ => change (0 + 1) with 1 in H
         | H : context [Z.pos ?p + 1] |- _ =>
             let v := eval vm_compute in (Z.pos p + 1) in
             change (Z.pos p + 1) with v in H
         end;
  cbv beta iota in *.

Ltac split_ltb_at a b :=
  destruct (Z.ltb_spec a b); eval_month; try lia; cbn [year month day] in *.

Ltac split_ltb :=
  repeat match goal with
         | |- context [?a <? ?b] => is_var a; split_ltb_at a b
         end;
  repeat match goal with
         | |- context [?a + 1 <? ?b] => is_var a; split_ltb_at (a + 1) b
         end;
  repeat match goal with
         | |- context [?a <? ?b] => split_ltb_at a b
         end.

Lemma civil_of_time_valid t : valid_civil (civil_of_time t).
Proof.
  unfold valid_civil, civil_of_time, days_in_month. cbn [year month day].
  unfold DateFromTime, MonthFromTime. cbv zeta.
  pose proof (DayWithinYear_range t) as Hr. rewrite DaysInYear_leap in Hr.
  rewrite InLeapYear_leap.
  generalize dependent (DayWithinYear t). intros w Hr.
  destruct (is_leap_year (YearFromTime t)); split_ltb; eval_month; lia.
Qed.

Lemma civil_of_time_next t :
  civil_of_time (t + msPerDay) = next_day (civil_of_time t).
Proof.
  pose proof (YearFromTime_spec t) as Hs.
  pose proof (DayWithinYear_range t) as Hr.
  rewrite DayFromYear_succ in Hs.
  destruct (Z_lt_le_dec (DayWithinYear t + 1) (DaysInYear (YearFromTime t)))
    as [Hin | Hout].
  - assert (Hy : YearFromTime (t + msPerDay) = YearFromTime t).
    { apply YearFromTime_unique. rewrite Day_succ, DayFromYear_succ.
      unfold DayWithinYear in Hin. lia. }
    assert (Hw : DayWithinYear (t + msPerDay) = DayWithinYear t + 1).
    { unfold DayWithinYear. rewrite Hy, Day_succ. lia. }
    unfold next_day, civil_of_time, days_in_month. cbn [year month day].
    unfold DateFromTime, MonthFromTime. cbv zeta.
    rewrite !InLeapYear_leap, Hy, Hw. rewrite DaysInYear_leap in Hin.
    clear Hs Hy Hw. generalize dependent (DayWithinYear t). intros w Hr Hin.
    destruct (is_leap_year (YearFromTime t)); split_ltb; eval_month; split_ltb;
      f_equal; lia.
  - assert (Hy : YearFromTime (t + msPerDay) = YearFromTime t + 1).
    { apply YearFromTime_unique. rewrite Day_succ, !DayFromYear_succ.
      pose proof (DaysInYear_leap (YearFromTime t + 1)).
      destruct (is_leap_year (YearFromTime t + 1)); unfold DayWithinYear in *; lia. }
    assert (Hw : DayWithinYear (t + msPerDay) = 0).
    { unfold DayWithinYear in *. rewrite Hy, Day_succ, DayFromYear_succ. lia. }
    unfold next_day, civil_of_time, days_in_month. cbn [year month day].
    unfold DateFromTime, MonthFromTime. cbv zeta.
    rewrite !InLeapYear_leap, Hy, Hw. rewrite DaysInYear_leap in Hout, Hr.
    clear Hs Hy Hw. generalize dependent (DayWithinYear t). intros w Hr Hout.
    destruct (is_leap_year (YearFromTime t)), (is_leap_year (YearFromTime t + 1));
      split_ltb; eval_month; split_ltb; f_equal; lia.
Qed.
End Calendar.


(** ** The date part of the ISO string *)

Section DateString.
Import JSDate.

Lemma digit_range n : (48 <= digit n <= 57)%N.
Proof.
  unfold digit. pose proof (Z.mod_pos_bound n 10 ltac:(lia)). lia.
Qed.

Lemma digit_is_digit n : is_digit (digit n) = true.
Proof.
  unfold is_digit. pose proof (digit_range n) as [Hl Hu].
  apply andb_true_intro. split; apply N.leb_le; assumption.
Qed.

Lemma digit_not_T n : digit n <> 84%N.
Proof. pose proof (digit_range n). lia. Qed.

Lemma split_head_app (sep : N) (a b : jsstring) :
  Forall (fun c => c <> sep) a -> split_head sep (a ++ sep :: b) = a.
Proof.
  induction 1 as [|c a Hc _ IH]; simpl.
  - rewrite N.eqb_refl. reflexivity.
  - destruct (N.eqb_spec c sep) as [Heq|_]; [contradiction|]. now rewrite IH.
Qed.

Lemma isoYear_no_T y : Forall (fun c => c <> 84%N) (isoYear y).
Proof.
  unfold isoYear, pad6, pad4, pad3, pad2.
  destruct ((0 <=? y) && (y <=? 9999)); [|destruct (y <? 0)];
    repeat (apply Forall_cons; split; [first [apply digit_not_T | vm_compute; discriminate]|]);
    apply Forall_nil_2.
Qed.

Lemma isoDate_no_T y m d : Forall (fun c => c <> 84%N) (isoDate y m d).
Proof.
  unfold isoDate, pad2. rewrite Forall_app. split; [apply isoYear_no_T|].
  repeat (apply Forall_cons; split; [first [apply digit_not_T | vm_compute; discriminate]|]).
  apply Forall_nil_2.
Qed.

Lemma toISOString_date t :
  split_head 84 (toISOString t)
    = isoDate (YearFromTime t) (MonthFromTime t + 1) (DateFromTime t).
Proof.
  unfold toISOString, isoTime. apply (split_head_app 84), isoDate_no_T.
Qed.

Lemma isoDate_truthy y m d : truthy (isoDate y m d) = true.
Proof.
  unfold isoDate, isoYear, pad4.
  destruct ((0 <=? y) && (y <=? 9999)); [|destruct (y <? 0)]; reflexivity.
Qed.

Lemma isoDate_shape y m d :
  0 <= y <= 9999 -> is_YYYY_MM_DD (isoDate y m d) = true.
Proof.
  intros Hy. unfold isoDate, isoYear.
  replace ((0 <=? y) && (y <=? 9999)) with true
    by (symmetry; apply andb_true_intro; split; apply Z.leb_le; lia).
  cbn. rewrite !digit_is_digit. reflexivity.
Qed.

Lemma digit_value_digit n : digit_value (digit n) = n mod 10.
Proof.
  unfold digit_value, digit. pose proof (Z.mod_pos_bound n 10 ltac:(lia)). lia.
Qed.

Lemma isoDate_read y m d :
  0 <= y <= 9999 -> 0 <= m <= 99 -> 0 <= d <= 99 ->
  read_YYYY_MM_DD (isoDate y m d) = Some {| year := y; month := m; day := d |}.
Proof.
  intros Hy Hm Hd. pose proof (isoDate_shape y m d Hy) as Hshape.
  revert Hshape. unfold isoDate, isoYear.
  replace ((0 <=? y) && (y <=? 9999)) with true
    by (symmetry; apply andb_true_intro; split; apply Z.leb_le; lia).
  unfold pad4, pad3, pad2. change (js "-") with [45%N].
  cbn [Datatypes.app]. intros Hshape.
  unfold read_YYYY_MM_DD. rewrite Hshape, !digit_value_digit.
  f_equal. f_equal; Z.div_mod_to_equations; lia.
Qed.

Lemma YearFromTime_four_digits t :
  TimeFromYear 0 <= t < TimeFromYear 10000 -> 0 <= YearFromTime t <= 9999.
Proof.
  intros [Hlo Hhi]. pose proof (YearFromTime_spec t) as [Hs1 Hs2].
  assert (Hlo' : DayFromYear 0 <= Day t).
  { apply Z.leb_le. rewrite <- TimeFromYear_leb. apply Z.leb_le, Hlo. }
  assert (Hhi' : Day t < DayFromYear 10000).
  { apply Z.nle_gt. intros Hc. apply Z.leb_le in Hc.
    rewrite <- TimeFromYear_leb in Hc. apply Z.leb_le in Hc. lia. }
  split.
  - apply Z.nlt_ge. intros Hc.
    pose proof (DayFromYear_mono (YearFromTime t + 1) 0). lia.
  - apply Z.nlt_ge. intros Hc.
    pose proof (DayFromYear_mono 10000 (YearFromTime t)). lia.
Qed.

Lemma YearFromTime_Day t t' : Day t = Day t' -> YearFromTime t = YearFromTime t'.
Proof.
  intros HD. apply YearFromTime_unique. rewrite HD. apply YearFromTime_spec.
Qed.

Lemma civil_of_time_Day t t' : Day t = Day t' -> civil_of_time t = civil_of_time t'.
Proof.
  intros HD. pose proof (YearFromTime_Day t t' HD) as HY.
  unfold civil_of_time, DateFromTime, MonthFromTime, InLeapYear, DayWithinYear.
  rewrite HD, HY. reflexivity.
Qed.

Lemma civil_of_time_iter (n : nat) t :
  Nat.iter n next_day (civil_of_time (t - Z.of_nat n * msPerDay)) = civil_of_time t.
Proof.
  revert t. induction n as [|n IH]; intros t.
  - unfold Nat.iter. cbn [nat_rect]. f_equal. unfold msPerDay. lia.
  - rewrite Nat.iter_succ_r, <- civil_of_time_next.
    replace (t - Z.of_nat (S n) * msPerDay + msPerDay)
      with (t - Z.of_nat n * msPerDay) by (unfold msPerDay; lia).
    apply IH.
Qed.

End DateString.

(** ** [getDateFrom] *)

Lemma days_in_month_le y m : days_in_month y m <= 31.
Proof.
  unfold days_in_month.
  destruct m as [|p|p]; try lia.
  repeat (match goal with
          | q : positive |- _ => destruct q as [q|q|]
          end; try lia; try (destruct (is_leap_year y); lia)).
Qed.

Lemma getDateFrom_isoDate now range :
  getDateFrom now range
    = JSDate.isoDate (year (civil_of_time (pastDate now range)))
        (month (civil_of_time (pastDate now range)))
        (day (civil_of_time (pastDate now range))).
Proof. unfold getDateFrom. apply toISOString_date. Qed.

Lemma getDateFrom_truthy now range : truthy (getDateFrom now range) = true.
Proof. rewrite getDateFrom_isoDate. apply isoDate_truthy. Qed.

Lemma pastDate_Day now range :
  JSDate.Day (pastDate now range) = JSDate.Day now - daysAgo range.
Proof. apply Day_shift. Qed.

Lemma daysAgo_cases range :
  daysAgo range
    = if bool_decide (range = Some (js "today")) then 1
      else if bool_decide (range = Some (js "month")) then 30
      else 7.
Proof.
  destruct range as [r|]; [|reflexivity]. unfold daysAgo.
  repeat case_bool_decide; simplify_eq; try reflexivity; try discriminate.
Qed.

(** C2. For every [dateRange] value (also a missing or unrecognised one)
    and every clock reading [now]: the number of days taken off is 1 for
    ['today'], 30 for ['month'] and 7 for ['week'] and for everything else;
    [getDateFrom] returns the date part alone (no time of day) of the UTC
    calendar date of [now] minus that many days; that date is a date of
    the calendar and lies exactly that many calendar days before the UTC
    date of [now]; the result is the same for every [now] of the same UTC
    day; and whenever that date falls in the years 0000 to 9999 it is
    printed as [YYYY-MM-DD], ten characters that read back as that date. *)
Theorem getDateFrom_days_ago (now : Z) (range : option jsstring) :
  daysAgo range
    = (if bool_decide (range = Some (js "today")) then 1
       else if bool_decide (range = Some (js "month")) then 30
       else 7)
  /\ JSDate.Day (pastDate now range) = JSDate.Day now - daysAgo range
  /\ getDateFrom now range
       = JSDate.isoDate (year (civil_of_time (pastDate now range)))
           (month (civil_of_time (pastDate now range)))
           (day (civil_of_time (pastDate now range)))
  /\ valid_civil (civil_of_time (pastDate now range))
  /\ Nat.iter (Z.to_nat (daysAgo range)) next_day
       (civil_of_time (pastDate now range)) = civil_of_time now
  /\ (forall now', JSDate.Day now' = JSDate.Day now ->
        getDateFrom now' range = getDateFrom now range)
  /\ (JSDate.TimeFromYear 0 <= pastDate now range < JSDate.TimeFromYear 10000 ->
        is_YYYY_MM_DD (getDateFrom now range) = true
        /\ read_YYYY_MM_DD (getDateFrom now range)
           = Some (civil_of_time (pastDate now range))).
Proof.
  split; [apply daysAgo_cases|].
  split; [apply pastDate_Day|].
  split; [apply getDateFrom_isoDate|].
  split; [apply civil_of_time_valid|].
  split.
  { assert (Hn : 0 <= daysAgo range).
    { rewrite daysAgo_cases. repeat case_bool_decide; lia. }
    pose proof (civil_of_time_iter (Z.to_nat (daysAgo range)) now) as Hit.
    rewrite Z2Nat.id in Hit by assumption.
    replace (pastDate now range) with (now - daysAgo range * JSDate.msPerDay)
      by (unfold pastDate, JSDate.msPerDay; lia).
    exact Hit. }
  split.
  { intros now' HD. rewrite !getDateFrom_isoDate.
    rewrite (civil_of_time_Day (pastDate now' range) (pastDate now range));
      [reflexivity|].
    rewrite !pastDate_Day, HD. reflexivity. }
  intros Hera. apply YearFromTime_four_digits in Hera.
  pose proof (civil_of_time_valid (pastDate now range)) as [Hm [Hd1 Hd2]].
  pose proof (days_in_month_le (year (civil_of_time (pastDate now range)))
                (month (civil_of_time (pastDate now range)))) as Hdim.
  rewrite getDateFrom_isoDate. split.
  - apply isoDate_shape, Hera.
  - rewrite isoDate_read; [reflexivity | exact Hera | lia | lia].
Qed.

Lemma getDateFrom_days_ago_witness :
  getDateFrom 1793663999999 (Some (js "week")) = js "2026-10-26"
  /\ is_YYYY_MM_DD (getDateFrom 1793663999999 (Some (js "week"))) = true
  /\ getDateFrom 1793577600000 (Some (js "week"))
       = getDateFrom 1793663999999 (Some (js "week")).
Proof.
  destruct (getDateFrom_days_ago 1793663999999 (Some (js "week")))
    as (_ & _ & Hdate & _ & _ & Hday & Hshape).
  split; [rewrite Hdate; vm_compute; reflexivity|].
  split.
  - apply Hshape. vm_compute. split; [discriminate | reflexivity].
  - apply Hday. vm_compute. reflexivity.
Defined.

(** Beyond the year 9999 [toISOString] prints the expanded year, a sign and
    six digits: a week after the first instant of the year 10000. *)
Example getDateFrom_expanded_year :
  getDateFrom (253402300800000 + 7 * JSDate.msPerDay) (Some (js "week"))
  = js "+010000-01-01".
Proof. vm_compute. reflexivity. Qed.

(** ** Well-formed strings *)

Lemma plain_surrogate (c : N) :
  plain c -> is_high_surrogate c = false /\ is_low_surrogate c = false.
Proof.
  unfold plain, is_high_surrogate, is_low_surrogate. intros [Hc _].
  split; apply andb_false_iff; rewrite !N.leb_gt; lia.
Qed.

Lemma toUSVString_length (paired : bool) (s : jsstring) :
  length (toUSVString_from paired s) = length s.
Proof.
  revert paired. induction s as [|c s IH]; intros paired; [reflexivity|].
  cbn [toUSVString_from].
  repeat match goal with
         | |- context [if ?b then _ else _] => destruct b
         end; cbn [length]; rewrite IH; reflexivity.
Qed.

Lemma truthy_toUSVString (s : jsstring) : truthy (toUSVString s) = truthy s.
Proof.
  pose proof (toUSVString_length false s) as Hlen. unfold toUSVString.
  destruct s, (toUSVString_from false _); try reflexivity; discriminate Hlen.
Qed.

(** A string of plain code units is well formed. *)
Lemma toUSVString_plain (s : jsstring) : Forall plain s -> toUSVString s = s.
Proof.
  unfold toUSVString. induction 1 as [|c s Hc _ IH]; [reflexivity|].
  cbn [toUSVString_from]. destruct (plain_surrogate c Hc) as [-> ->].
  rewrite IH. reflexivity.
Qed.

(** Only a string of plain code units converts to one. *)
Lemma toUSVString_eq_plain (s t : jsstring) :
  Forall plain t -> toUSVString s = t -> s = t.
Proof.
  unfold toUSVString. intros Ht. revert s.
  induction Ht as [|d t Hd _ IH]; intros s Hs.
  - pose proof (toUSVString_length false s) as Hlen. rewrite Hs in Hlen.
    destruct s; [reflexivity | discriminate Hlen].
  - destruct s as [|c s]; [discriminate Hs|].
    cbn [toUSVString_from] in Hs.
    destruct (plain_surrogate d Hd) as [Hh Hl].
    destruct (is_high_surrogate c) eqn:Hc.
    + destruct (match s with d0 :: _ => is_low_surrogate d0 | [] => false end);
        injection Hs as <- Hs; [congruence|].
      destruct Hd as [_ Hd]. congruence.
    + destruct (is_low_surrogate c) eqn:Hc'; injection Hs as <- Hs.
      * destruct Hd as [_ Hd]. congruence.
      * f_equal. apply IH, Hs.
Qed.

Lemma toUSVString_all (s : jsstring) :
  bool_decide (toUSVString s = js "all") = bool_decide (s = js "all").
Proof.
  assert (Hall : Forall plain (js "all"))
    by (repeat constructor; first [left; reflexivity | discriminate]).
  apply bool_decide_ext. split.
  - intros H. apply toUSVString_eq_plain; assumption.
  - intros ->. apply toUSVString_plain, Hall.
Qed.

(** Code unit by code unit, the conversion keeps what it reads or puts
    U+FFFD for a surrogate. *)
Lemma toUSVString_units (paired : bool) (s : jsstring) :
  Forall2 (fun a b => b = a \/ (b = 65533%N /\ ~ plain a))
    s (toUSVString_from paired s).
Proof.
  assert (Hhigh : forall c, is_high_surrogate c = true -> ~ plain c).
  { unfold is_high_surrogate, plain. intros c Hc.
    apply andb_prop in Hc as [Hc Hc']. apply N.leb_le in Hc, Hc'. lia. }
  assert (Hlow : forall c, is_low_surrogate c = true -> ~ plain c).
  { unfold is_low_surrogate, plain. intros c Hc.
    apply andb_prop in Hc as [Hc Hc']. apply N.leb_le in Hc, Hc'. lia. }
  revert paired. induction s as [|c s IH]; intros paired; [constructor|].
  cbn [toUSVString_from].
  destruct paired; [constructor; [left; reflexivity | apply IH]|].
  destruct (is_high_surrogate c) eqn:Hc.
  - destruct (match s with d :: _ => is_low_surrogate d | [] => false end);
      constructor;
      first [apply IH | left; reflexivity
            | right; split; [reflexivity | apply Hhigh, Hc]].
  - destruct (is_low_surrogate c) eqn:Hc';
      constructor;
      first [apply IH | left; reflexivity
            | right; split; [reflexivity | apply Hlow, Hc']].
Qed.

Lemma is_whitespace_plain (c : N) : is_whitespace c = true -> plain c.
Proof.
  unfold is_whitespace, plain. intros Hc.
  repeat (apply orb_prop in Hc as [Hc|Hc]);
    repeat match goal with
           | H : (_ && _)%bool = true |- _ => apply andb_prop in H as [? ?]
           | H : (_ <=? _)%N = true |- _ => apply N.leb_le in H
           | H : (_ =? _)%N = true |- _ => apply N.eqb_eq in H
           end; lia.
Qed.

(** The conversion neither makes a blank string of one that is not nor the
    other way round. *)
Lemma whitespace_only_toUSVString (s : jsstring) :
  whitespace_only (toUSVString s) <-> whitespace_only s.
Proof.
  unfold whitespace_only, toUSVString.
  pose proof (toUSVString_units false s) as Hunits.
  induction Hunits as [|a b s t Hab _ IH]; [reflexivity|].
  rewrite !Forall_cons, IH.
  enough (is_whitespace b = true <-> is_whitespace a = true) as ->
    by reflexivity.
  destruct Hab as [->|[-> Ha]]; [reflexivity|]. split.
  - intros Hb. vm_compute in Hb. discriminate Hb.
  - intros Hw. exfalso. apply Ha, is_whitespace_plain, Hw.
Qed.

Lemma digit_plain (n : Z) : plain (JSDate.digit n).
Proof. pose proof (digit_range n). unfold plain. lia. Qed.

(** The date of [getDateFrom] is digits, hyphens and at most a sign. *)
Lemma getDateFrom_well_formed (now : Z) (range : option jsstring) :
  toUSVString (getDateFrom now range) = getDateFrom now range.
Proof.
  rewrite getDateFrom_isoDate. apply toUSVString_plain.
  unfold JSDate.isoDate, JSDate.isoYear, JSDate.pad6, JSDate.pad4,
    JSDate.pad3, JSDate.pad2.
  rewrite Forall_app. split.
  - destruct ((0 <=? _) && (_ <=? 9999)); [|destruct (_ <? 0)];
      repeat (apply Forall_cons; split;
              [first [apply digit_plain
                     | split; [left; reflexivity | discriminate]]|]);
      apply Forall_nil_2.
  - repeat (apply Forall_cons; split;
            [first [apply digit_plain
                   | split; [left; reflexivity | discriminate]]|]);
      apply Forall_nil_2.
Qed.

(** ** The request parameters, from the client to the upstream call *)

Ltac js_ne := let H := fresh in intros H; vm_compute in H; discriminate H.

Lemma strict_ne_all (s : jsstring) :
  strict_ne (Some s) (js "all") = negb (bool_decide (s = js "all")).
Proof. reflexivity. Qed.

(** The pairs of a request, name by name: the names and the two values the
    code itself provides are well formed and go out as they are. *)
Lemma fetchNews_params_pairs (now : Z) (query : jsstring)
    (filters : gmap (list N) (list N)) :
  fetchNews_params now query filters
  = [ (js "q", toUSVString query);
      (js "language", toUSVString (ToString (filters !! js "language")));
      (js "from", getDateFrom now (filters !! js "dateRange"));
      (js "sortBy", js "publishedAt") ]
    ++ (if strict_ne (filters !! js "source") (js "all")
        then [(js "sources", toUSVString (ToString (filters !! js "source")))]
        else []).
Proof.
  unfold fetchNews_params, new_URLSearchParams, URLSearchParams_append.
  cbn [map fst snd]. rewrite getDateFrom_well_formed.
  destruct (strict_ne (filters !! js "source") (js "all")); reflexivity.
Qed.

(** The client sends every parameter name once. *)
Lemma fetchNews_params_names (now : Z) (query : jsstring)
    (filters : gmap (list N) (list N)) :
  NoDup (fetchNews_params now query filters).*1.
Proof.
  rewrite fetchNews_params_pairs.
  destruct (strict_ne (filters !! js "source") (js "all"));
    cbn [Datatypes.app fmap list_fmap fst];
    repeat (apply NoDup_cons; split;
            [rewrite ?elem_of_cons, elem_of_nil;
             intros H; repeat destruct H as [H|H];
             try (vm_compute in H; discriminate H); exact H|]);
    apply NoDup_nil_2.
Qed.

(** So [req.query] reads back exactly the pairs that were sent. *)
Lemma req_query_pairs (now : Z) (query : jsstring)
    (filters : gmap (list N) (list N)) (k v : jsstring) :
  req_query (fetchNews_params now query filters) !! k = Some (QString v)
  <-> (k, v) ∈ fetchNews_params now query filters.
Proof.
  unfold req_query. rewrite lookup_fmap.
  rewrite (elem_of_list_to_map (M := gmap (list N)))
    by apply fetchNews_params_names.
  destruct (_ !! k) as [v'|]; cbn [fmap option_fmap option_map].
  - split; [intros [= ->]; reflexivity | intros [= ->]; reflexivity].
  - split; discriminate.
Qed.

(** What [req.query] holds for a request of [fetchNews]. *)
Lemma req_query_fetchNews (now : Z) (query : jsstring)
    (filters : gmap (list N) (list N)) (k : jsstring) :
  req_query (fetchNews_params now query filters) !! k
    = QString <$>
      (if bool_decide (k = js "q") then Some (toUSVString query)
       else if bool_decide (k = js "language")
       then Some (toUSVString (ToString (filters !! js "language")))
       else if bool_decide (k = js "from")
       then Some (getDateFrom now (filters !! js "dateRange"))
       else if bool_decide (k = js "sortBy") then Some (js "publishedAt")
       else if bool_decide (k = js "sources")
               && strict_ne (filters !! js "source") (js "all")
       then Some (toUSVString (ToString (filters !! js "source")))
       else None).
Proof.
  unfold req_query. rewrite lookup_fmap. f_equal.
  rewrite fetchNews_params_pairs.
  destruct (strict_ne (filters !! js "source") (js "all"));
    cbn [Datatypes.app]; rewrite !list_to_map_cons, list_to_map_nil;
    repeat (case_bool_decide;
            [subst k; repeat (first [rewrite lookup_insert_eq; reflexivity
                                    |rewrite lookup_insert_ne by js_ne])|];
            rewrite ?lookup_insert_ne by congruence);
    cbn [andb]; try rewrite lookup_empty; try reflexivity.
Qed.

Ltac lookup_inserts :=
  repeat first [ rewrite lookup_insert_eq
               | rewrite lookup_insert_ne by js_ne
               | rewrite lookup_empty ].

Section BuildParams.
Import Backend.
Variable NEWS_API_KEY : list N.
Variable filters : gmap (list N) qvalue.

Lemma guarded_assign_ne (b : bool) (k k' : jsstring) (v : option qvalue)
    (params : gmap (list N) value) :
  k <> k' -> (if b then assign k v params else params) !! k' = params !! k'.
Proof.
  intros Hne. destruct b; [|reflexivity]. unfold assign.
  destruct v; [apply lookup_insert_ne, Hne | reflexivity].
Qed.

Lemma guarded_assign_plain (k : jsstring) (v : option qvalue)
    (params : gmap (list N) value) :
  params !! k = None ->
  (if truthy_query v then assign k v params else params) !! k
    = passed_on false v.
Proof.
  intros Hk. unfold passed_on, assign.
  destruct v as [[s|items|fields]|]; cbn [truthy_query of_query].
  - destruct (truthy s); cbn [andb negb]; [apply lookup_insert_eq | exact Hk].
  - apply lookup_insert_eq.
  - apply lookup_insert_eq.
  - exact Hk.
Qed.

Lemma guarded_assign_all (k : jsstring) (v : option qvalue)
    (params : gmap (list N) value) :
  params !! k = None ->
  (if truthy_query v && strict_ne_query v (js "all") then assign k v params
   else params) !! k
    = passed_on true v.
Proof.
  intros Hk. unfold passed_on, assign, strict_ne_query.
  destruct v as [[s|items|fields]|]; cbn [truthy_query of_query andb].
  - destruct (truthy s), (bool_decide (s = js "all")); cbn [andb negb];
      first [apply lookup_insert_eq | exact Hk].
  - apply lookup_insert_eq.
  - apply lookup_insert_eq.
  - exact Hk.
Qed.

Ltac through_guards :=
  unfold buildNewsAPIParams; cbv zeta;
  repeat first [ rewrite lookup_insert_ne by js_ne
               | rewrite guarded_assign_ne by js_ne ].

Lemma buildNewsAPIParams_q :
  buildNewsAPIParams NEWS_API_KEY filters !! js "q"
    = passed_on false (filters !! js "q").
Proof. through_guards. apply guarded_assign_plain. lookup_inserts. reflexivity. Qed.

Lemma buildNewsAPIParams_language :
  buildNewsAPIParams NEWS_API_KEY filters !! js "language"
    = passed_on true (filters !! js "language").
Proof.
  through_guards. apply guarded_assign_all.
  through_guards. lookup_inserts. reflexivity.
Qed.

Lemma buildNewsAPIParams_from :
  buildNewsAPIParams NEWS_API_KEY filters !! js "from"
    = passed_on false (filters !! js "from").
Proof.
  through_guards. apply guarded_assign_plain.
  through_guards. lookup_inserts. reflexivity.
Qed.

Lemma buildNewsAPIParams_sources :
  buildNewsAPIParams NEWS_API_KEY filters !! js "sources"
    = passed_on true (filters !! js "sources").
Proof.
  through_guards. apply guarded_assign_all.
  through_guards. lookup_inserts. reflexivity.
Qed.

Lemma buildNewsAPIParams_sortBy :
  buildNewsAPIParams NEWS_API_KEY filters !! js "sortBy"
    = Some (or_else_query (filters !! js "sortBy") (js "publishedAt")).
Proof. unfold buildNewsAPIParams. cbv zeta. apply lookup_insert_eq. Qed.

Lemma buildNewsAPIParams_pageSize :
  buildNewsAPIParams NEWS_API_KEY filters !! js "pageSize" = Some (VNum 20).
Proof. through_guards. lookup_inserts. reflexivity. Qed.

Lemma buildNewsAPIParams_apiKey :
  buildNewsAPIParams NEWS_API_KEY filters !! js "apiKey"
    = Some (VStr NEWS_API_KEY).
Proof. through_guards. lookup_inserts. reflexivity. Qed.

Lemma buildNewsAPIParams_other (k : jsstring) :
  k ∉ upstream_names -> buildNewsAPIParams NEWS_API_KEY filters !! k = None.
Proof.
  unfold upstream_names. intros Hk.
  assert (Hne : forall n : list N, n ∈ upstream_names -> n <> k).
  { intros n Hn ->. exact (Hk Hn). }
  unfold upstream_names in Hne.
  unfold buildNewsAPIParams; cbv zeta.
  repeat first [ rewrite lookup_insert_ne by (apply Hne; set_solver)
               | rewrite guarded_assign_ne by (apply Hne; set_solver) ].
  apply lookup_empty.
Qed.

End BuildParams.

Lemma truthy_nonempty (s : jsstring) : s <> [] -> truthy s = true.
Proof. destruct s; [congruence | reflexivity]. Qed.

(** What a string that went over the wire becomes in the upstream call. *)
Lemma passed_on_wire (sentinel : bool) (s : jsstring) :
  passed_on sentinel (Some (QString (toUSVString s)))
    = if truthy s && negb (sentinel && bool_decide (s = js "all"))
      then Some (Backend.VStr (toUSVString s))
      else None.
Proof.
  unfold passed_on. rewrite truthy_toUSVString, toUSVString_all. reflexivity.
Qed.

Ltac req_lookup :=
  rewrite req_query_fetchNews;
  repeat (rewrite bool_decide_eq_false_2 by js_ne);
  try (rewrite bool_decide_eq_true_2 by reflexivity);
  cbn [fmap option_fmap option_map].

(** The three filter parameters of the upstream call. *)
Lemma queryBuilder_fields (NEWS_API_KEY : jsstring) (now : Z)
    (query : jsstring) (filters : gmap (list N) (list N))
    (language source : jsstring) :
  filters !! js "language" = Some language ->
  filters !! js "source" = Some source ->
  queryBuilder NEWS_API_KEY now query filters !! js "language"
    = (if truthy language && negb (bool_decide (language = js "all"))
       then Some (Backend.VStr (toUSVString language)) else None)
  /\ queryBuilder NEWS_API_KEY now query filters !! js "from"
       = Some (Backend.VStr (getDateFrom now (filters !! js "dateRange")))
  /\ queryBuilder NEWS_API_KEY now query filters !! js "sources"
       = (if truthy source && negb (bool_decide (source = js "all"))
          then Some (Backend.VStr (toUSVString source)) else None).
Proof.
  intros Hl Hs. unfold queryBuilder.
  repeat split.
  - rewrite buildNewsAPIParams_language. req_lookup.
    rewrite Hl. cbn [ToString]. apply passed_on_wire.
  - rewrite buildNewsAPIParams_from. req_lookup.
    unfold passed_on. rewrite getDateFrom_truthy. reflexivity.
  - rewrite buildNewsAPIParams_sources. req_lookup.
    rewrite Hs. cbn [ToString andb]. rewrite strict_ne_all.
    destruct (bool_decide (source = js "all")) eqn:Hall; cbn [negb].
    + rewrite andb_false_r. reflexivity.
    + cbn [fmap option_fmap option_map]. rewrite passed_on_wire, Hall.
      reflexivity.
Qed.

(** C1 (as amended). For every query, clock reading and filter state, the
    parameter object the upstream API is called with holds: [q] exactly
    when the query is not the empty string (nothing is trimmed); [from]
    always; [sortBy] = ['publishedAt']; [pageSize] = 20; the server's
    [apiKey]; no name other than these and [language] and [sources];
    [language] exactly when the language filter is neither empty nor
    ['all']; and [sources] exactly when the source filter is neither empty
    nor ['all']. What is sent under [q], [language] and [sources] is the
    query and the filter value with every lone surrogate replaced by
    U+FFFD. *)
Theorem queryBuilder_keys (NEWS_API_KEY : jsstring) (now : Z)
    (query : jsstring) (filters : gmap (list N) (list N)) :
  queryBuilder NEWS_API_KEY now query filters !! js "q"
    = (if truthy query then Some (Backend.VStr (toUSVString query)) else None)
  /\ queryBuilder NEWS_API_KEY now query filters !! js "from"
       = Some (Backend.VStr (getDateFrom now (filters !! js "dateRange")))
  /\ queryBuilder NEWS_API_KEY now query filters !! js "sortBy"
       = Some (Backend.VStr (js "publishedAt"))
  /\ queryBuilder NEWS_API_KEY now query filters !! js "pageSize"
       = Some (Backend.VNum 20)
  /\ queryBuilder NEWS_API_KEY now query filters !! js "apiKey"
       = Some (Backend.VStr NEWS_API_KEY)
  /\ (forall k : jsstring, k ∉ upstream_names ->
        queryBuilder NEWS_API_KEY now query filters !! k = None)
  /\ (forall language : jsstring,
        filters !! js "language" = Some language ->
        queryBuilder NEWS_API_KEY now query filters !! js "language"
          = (if truthy language && negb (bool_decide (language = js "all"))
             then Some (Backend.VStr (toUSVString language)) else None))
  /\ (forall source : jsstring,
        filters !! js "source" = Some source ->
        queryBuilder NEWS_API_KEY now query filters !! js "sources"
          = (if truthy source && negb (bool_decide (source = js "all"))
             then Some (Backend.VStr (toUSVString source)) else None)).
Proof.
  unfold queryBuilder.
  split.
  { rewrite buildNewsAPIParams_q. req_lookup.
    rewrite passed_on_wire. cbn [andb negb]. rewrite andb_true_r.
    reflexivity. }
  split.
  { rewrite buildNewsAPIParams_from. req_lookup.
    unfold passed_on. rewrite getDateFrom_truthy. reflexivity. }
  split; [rewrite buildNewsAPIParams_sortBy; req_lookup; reflexivity|].
  split; [apply buildNewsAPIParams_pageSize|].
  split; [apply buildNewsAPIParams_apiKey|].
  split; [intros k Hk; apply buildNewsAPIParams_other, Hk|].
  split.
  { intros language Hl.
    rewrite buildNewsAPIParams_language. req_lookup.
    rewrite Hl. cbn [ToString]. apply passed_on_wire. }
  { intros source Hs.
    rewrite buildNewsAPIParams_sources. req_lookup.
    rewrite Hs. cbn [ToString andb]. rewrite strict_ne_all.
    destruct (bool_decide (source = js "all")) eqn:Hall; cbn [negb].
    - rewrite andb_false_r. reflexivity.
    - cbn [fmap option_fmap option_map]. rewrite passed_on_wire, Hall.
      reflexivity. }
Qed.

Lemma queryBuilder_keys_witness :
  queryBuilder (js "secret") 1793663999999 (js "technology") initialFilters
    !! js "q" = Some (Backend.VStr (js "technology"))
  /\ queryBuilder (js "secret") 1793663999999 (js "technology") initialFilters
       !! js "language" = Some (Backend.VStr (js "en"))
  /\ queryBuilder (js "secret") 1793663999999 (js "technology") initialFilters
       !! js "sources" = None
  /\ queryBuilder (js "secret") 1793663999999 (js "technology") initialFilters
       !! js "from" = Some (Backend.VStr (js "2026-10-26")).
Proof.
  assert (Hl : initialFilters !! js "language" = Some (js "en"))
    by (vm_compute; reflexivity).
  assert (Hs : initialFilters !! js "source" = Some (js "all"))
    by (vm_compute; reflexivity).
  destruct (queryBuilder_keys (js "secret") 1793663999999 (js "technology")
              initialFilters)
    as (Hq & Hfrom & _ & _ & _ & _ & Hlang & Hsrc).
  split; [rewrite Hq; vm_compute; reflexivity|].
  split; [rewrite (Hlang _ Hl); vm_compute; reflexivity|].
  split; [rewrite (Hsrc _ Hs); vm_compute; reflexivity|].
  rewrite Hfrom. vm_compute. reflexivity.
Defined.

(** C1 as stated fails. A query of one space is empty after trimming, yet
    the upstream call carries it as [q]. The parameter object also carries
    [apiKey], which is not among the names the claim lists. An empty source
    or language is not ['all'], yet the upstream call carries no [sources]
    or [language] for it. And a source with a lone surrogate in it is not
    sent as it is: U+FFFD goes in its place. *)
Lemma queryBuilder_untrimmed_query :
  ~ (is_Some (queryBuilder (js "secret") 1793663999999 (js " ") initialFilters
                !! js "q")
     <-> trim (js " ") <> [])
  /\ is_Some (queryBuilder (js "secret") 1793663999999 (js " ") initialFilters
                !! js "apiKey")
  /\ ([] <> js "all"
      /\ queryBuilder (js "secret") 1793663999999 (js "technology")
           (handleFilterChange (js "source") [] initialFilters)
           !! js "sources" = None
      /\ queryBuilder (js "secret") 1793663999999 (js "technology")
           (handleFilterChange (js "language") [] initialFilters)
           !! js "language" = None)
  /\ ([55357%N] <> js "all"
      /\ queryBuilder (js "secret") 1793663999999 (js "technology")
           (handleFilterChange (js "source") [55357%N] initialFilters)
           !! js "sources" = Some (Backend.VStr [65533%N])
      /\ [65533%N] <> [55357%N]).
Proof.
  split.
  { intros [Hcode _].
    assert (Hq : is_Some (queryBuilder (js "secret") 1793663999999 (js " ")
                            initialFilters !! js "q"))
      by (vm_compute; eexists; reflexivity).
    apply (Hcode Hq). vm_compute. reflexivity. }
  split; [vm_compute; eexists; reflexivity|].
  split.
  { split; [discriminate|]. split; vm_compute; reflexivity. }
  split; [discriminate|]. split; [vm_compute; reflexivity | discriminate].
Qed.

(** ** The round trip of the filters *)

Lemma prev_next_day (c : civil) : valid_civil c -> prev_day (next_day c) = c.
Proof.
  destruct c as [y m d]. unfold valid_civil, prev_day, next_day.
  cbn [year month day]. intros [Hm [Hd1 Hd2]].
  destruct (Z.ltb_spec d (days_in_month y m)); cbn [year month day].
  - destruct (Z.ltb_spec 1 (d + 1)); [|lia]. f_equal. lia.
  - destruct (Z.ltb_spec m 12); cbn [year month day].
    + destruct (Z.ltb_spec 1 1); [lia|].
      destruct (Z.ltb_spec 1 (m + 1)); [|lia].
      replace (m + 1 - 1) with m by lia. f_equal. lia.
    + destruct (Z.ltb_spec 1 1); [lia|].
      assert (m = 12) as -> by lia. cbn [days_in_month] in *.
      replace (y + 1 - 1) with y by lia. f_equal. lia.
Qed.

(** A day earlier on the clock is the day before in the calendar. *)
Lemma civil_of_time_prev (t : Z) :
  civil_of_time (t - JSDate.msPerDay) = prev_day (civil_of_time t).
Proof.
  replace t with (t - JSDate.msPerDay + JSDate.msPerDay) at 2 by lia.
  rewrite civil_of_time_next.
  symmetry. apply prev_next_day, civil_of_time_valid.
Qed.

Lemma civil_of_time_back (n : nat) (t : Z) :
  civil_of_time (t - Z.of_nat n * JSDate.msPerDay)
  = Nat.iter n prev_day (civil_of_time t).
Proof.
  induction n as [|n IH].
  - unfold Nat.iter; cbn [nat_rect]. f_equal. lia.
  - change (Nat.iter (S n) prev_day (civil_of_time t))
      with (prev_day (Nat.iter n prev_day (civil_of_time t))).
    rewrite <- IH, <- civil_of_time_prev. f_equal. lia.
Qed.

(** The [switch] of [getDateFrom] is the table of the spec. *)
Lemma daysAgo_range_days (dateRange : jsstring) :
  daysAgo (Some dateRange) = Z.of_nat (range_days dateRange).
Proof.
  unfold daysAgo, range_days.
  repeat case_bool_decide; subst; try reflexivity;
    match goal with H : _ = _ |- _ => vm_compute in H; discriminate H end.
Qed.

(** The date [getDateFrom] prints lies [range_days] days back. *)
Lemma pastDate_civil (now : Z) (dateRange : jsstring) :
  civil_of_time (pastDate now (Some dateRange))
  = Nat.iter (range_days dateRange) prev_day (civil_of_time now).
Proof.
  rewrite <- civil_of_time_back. f_equal.
  unfold pastDate, JSDate.msPerDay. rewrite daysAgo_range_days. lia.
Qed.

(** C7 (as amended). Round trip: for every filter state whose language and
    source are non-empty, well-formed strings, the request the client
    encodes carries the language, the date and (unless ['all']) the source,
    and the parameters the backend decodes and sends to the upstream API
    hold the filter the filter state denotes: the same language, the same
    source, and as [from] the calendar date one, seven or thirty days
    before today, by the range, in the date format of [toISOString]. Where
    that date has a four-digit year, the filter read back from the upstream
    parameters, its date read as [YYYY-MM-DD], is the denoted filter. *)
Theorem filter_round_trip (NEWS_API_KEY : jsstring) (now : Z)
    (query : jsstring) (filters : gmap (list N) (list N))
    (language dateRange source : jsstring) :
  filters !! js "language" = Some language ->
  filters !! js "dateRange" = Some dateRange ->
  filters !! js "source" = Some source ->
  language <> [] -> well_formed language ->
  source <> [] -> well_formed source ->
  req_query (fetchNews_params now query filters) !! js "language"
    = Some (QString language)
  /\ req_query (fetchNews_params now query filters) !! js "from"
       = Some (QString
                 (JSDate.isoDate
                    (year (Nat.iter (range_days dateRange) prev_day
                             (civil_of_time now)))
                    (month (Nat.iter (range_days dateRange) prev_day
                              (civil_of_time now)))
                    (day (Nat.iter (range_days dateRange) prev_day
                            (civil_of_time now)))))
  /\ req_query (fetchNews_params now query filters) !! js "sources"
       = QString <$> effective source
  /\ eff_language (upstream_filter (queryBuilder NEWS_API_KEY now query filters))
     = effective language
  /\ eff_sources (upstream_filter (queryBuilder NEWS_API_KEY now query filters))
     = effective source
  /\ queryBuilder NEWS_API_KEY now query filters !! js "from"
     = Some (Backend.VStr
               (JSDate.isoDate
                  (year (Nat.iter (range_days dateRange) prev_day
                           (civil_of_time now)))
                  (month (Nat.iter (range_days dateRange) prev_day
                            (civil_of_time now)))
                  (day (Nat.iter (range_days dateRange) prev_day
                          (civil_of_time now)))))
  /\ (JSDate.TimeFromYear 0 <= pastDate now (Some dateRange)
        < JSDate.TimeFromYear 10000 ->
      upstream_filter (queryBuilder NEWS_API_KEY now query filters)
      = denoted_filter (civil_of_time now) language dateRange source).
Proof.
  intros Hl Hd Hs Hl0 Hlw Hs0 Hsw.
  destruct (queryBuilder_fields NEWS_API_KEY now query filters language source
              Hl Hs) as (Hlang & Hfrom & Hsrc).
  rewrite Hlw in Hlang. rewrite Hsw in Hsrc.
  rewrite (truthy_nonempty language Hl0) in Hlang.
  rewrite (truthy_nonempty source Hs0) in Hsrc.
  cbn [andb] in Hlang, Hsrc.
  assert (Hdate : getDateFrom now (Some dateRange)
                  = JSDate.isoDate
                      (year (Nat.iter (range_days dateRange) prev_day
                               (civil_of_time now)))
                      (month (Nat.iter (range_days dateRange) prev_day
                                (civil_of_time now)))
                      (day (Nat.iter (range_days dateRange) prev_day
                              (civil_of_time now)))).
  { rewrite getDateFrom_isoDate, pastDate_civil. reflexivity. }
  assert (Heff_l : eff_language
                     (upstream_filter
                        (queryBuilder NEWS_API_KEY now query filters))
                   = effective language).
  { unfold upstream_filter, effective. cbn [eff_language]. rewrite Hlang.
    destruct (bool_decide (language = js "all")); reflexivity. }
  assert (Heff_s : eff_sources
                     (upstream_filter
                        (queryBuilder NEWS_API_KEY now query filters))
                   = effective source).
  { unfold upstream_filter, effective. cbn [eff_sources]. rewrite Hsrc.
    destruct (bool_decide (source = js "all")); reflexivity. }
  split; [|split; [|split; [|split; [|split; [|split]]]]].
  - req_lookup. rewrite Hl. cbn [ToString]. rewrite Hlw. reflexivity.
  - req_lookup. rewrite Hd, Hdate. reflexivity.
  - req_lookup. rewrite Hs. cbn [ToString andb]. rewrite strict_ne_all.
    unfold effective. rewrite Hsw.
    destruct (bool_decide (source = js "all")); reflexivity.
  - exact Heff_l.
  - exact Heff_s.
  - rewrite Hfrom, Hd, Hdate. reflexivity.
  - intros Hera.
    assert (Hread : read_YYYY_MM_DD (getDateFrom now (Some dateRange))
                    = Some (Nat.iter (range_days dateRange) prev_day
                              (civil_of_time now))).
    { rewrite <- pastDate_civil, getDateFrom_isoDate.
      pose proof (YearFromTime_four_digits _ Hera) as Hy.
      pose proof (civil_of_time_valid (pastDate now (Some dateRange)))
        as [Hm [Hd1 Hd2]].
      pose proof (days_in_month_le
                    (year (civil_of_time (pastDate now (Some dateRange))))
                    (month (civil_of_time (pastDate now (Some dateRange)))))
        as Hdim.
      rewrite isoDate_read; [reflexivity | exact Hy | lia | lia]. }
    pose proof Heff_l as Hl'. pose proof Heff_s as Hs'.
    unfold upstream_filter in *. cbn [eff_language eff_sources] in Hl', Hs'.
    rewrite Hl', Hs'. unfold denoted_filter. f_equal.
    rewrite Hfrom, Hd. cbn [string_param mbind option_bind]. exact Hread.
Qed.

Lemma filter_round_trip_witness :
  upstream_filter
    (queryBuilder (js "secret") 1793663999999 (js "technology")
       (handleFilterChange (js "source") (js "bbc-news") initialFilters))
  = {| eff_language := Some (js "en");
       eff_from := Some {| year := 2026; month := 10; day := 26 |};
       eff_sources := Some (js "bbc-news") |}.
Proof.
  assert (Hl0 : js "en" <> []) by (vm_compute; discriminate).
  assert (Hs0 : js "bbc-news" <> []) by (vm_compute; discriminate).
  assert (Hlw : well_formed (js "en")) by (vm_compute; reflexivity).
  assert (Hsw : well_formed (js "bbc-news")) by (vm_compute; reflexivity).
  assert (Hera : JSDate.TimeFromYear 0
                 <= pastDate 1793663999999 (Some (js "week"))
                 < JSDate.TimeFromYear 10000)
    by (vm_compute; split; [discriminate | reflexivity]).
  destruct (filter_round_trip (js "secret") 1793663999999 (js "technology")
              (handleFilterChange (js "source") (js "bbc-news") initialFilters)
              (js "en") (js "week") (js "bbc-news")
              ltac:(vm_compute; reflexivity)
              ltac:(vm_compute; reflexivity)
              ltac:(vm_compute; reflexivity) Hl0 Hlw Hs0 Hsw)
    as (_ & _ & _ & _ & _ & _ & Hfilter).
  rewrite (Hfilter Hera). vm_compute. reflexivity.
Defined.

(** C7 as stated fails. An empty source is a source filter other than
    ['all']: the client encodes it and the backend drops it, so the
    upstream call is not restricted to it; the same goes for an empty
    language. And a source with a lone surrogate in it reaches the upstream
    call as another string, with U+FFFD in its place. *)
Lemma round_trip_loses_empty_filter :
  (req_query (fetchNews_params 1793663999999 (js "technology")
                (handleFilterChange (js "source") [] initialFilters))
     !! js "sources" = Some (QString [])
   /\ eff_sources
        (upstream_filter
           (queryBuilder (js "secret") 1793663999999 (js "technology")
              (handleFilterChange (js "source") [] initialFilters)))
      = None
   /\ upstream_filter
        (queryBuilder (js "secret") 1793663999999 (js "technology")
           (handleFilterChange (js "source") [] initialFilters))
      <> denoted_filter (civil_of_time 1793663999999) (js "en") (js "week") [])
  /\ (eff_language
        (upstream_filter
           (queryBuilder (js "secret") 1793663999999 (js "technology")
              (handleFilterChange (js "language") [] initialFilters)))
      = None
      /\ upstream_filter
           (queryBuilder (js "secret") 1793663999999 (js "technology")
              (handleFilterChange (js "language") [] initialFilters))
         <> denoted_filter (civil_of_time 1793663999999) [] (js "week")
              (js "all"))
  /\ (eff_sources
        (upstream_filter
           (queryBuilder (js "secret") 1793663999999 (js "technology")
              (handleFilterChange (js "source") [55357%N] initialFilters)))
      = Some [65533%N]
      /\ upstream_filter
           (queryBuilder (js "secret") 1793663999999 (js "technology")
              (handleFilterChange (js "source") [55357%N] initialFilters))
         <> denoted_filter (civil_of_time 1793663999999) (js "en") (js "week")
              [55357%N]).
Proof.
  repeat split;
    first [ vm_compute; reflexivity
          | intros H; apply (f_equal eff_sources) in H; vm_compute in H;
            discriminate H
          | intros H; apply (f_equal eff_language) in H; vm_compute in H;
            discriminate H ].
Qed.

(** ** [handleAPIError] *)

Lemma status_default (A : Type) (st : Z) (a b c d e : A) :
  st <> 401 -> st <> 429 -> st <> 426 -> st <> 500 ->
  match st with 401 => a | 429 => b | 426 => c | 500 => d | _ => e end = e.
Proof.
  intros H1 H2 H3 H4.
  destruct st as [|p|p]; try reflexivity.
  repeat (match goal with
          | q : positive |- _ => destruct q as [q|q|]
          end; try reflexivity; try congruence).
Qed.

(** What [handleAPIError] returns when the upstream answer has a body that
    is not [null]: the row of the table for its status. *)
Lemma handleAPIError_returns (st : Z) (m : option jsstring) :
  exists x,
    Backend.handleAPIError
      {| Backend.error_response :=
           Some {| Backend.status := st; Backend.data := Backend.DataValue m |} |}
    = Backend.Returns x
    /\ Backend.code x = kind_code (error_kind (Some st))
    /\ truthy (Backend.error_text x) = true.
Proof.
  unfold Backend.handleAPIError, error_kind.
  cbn [Backend.error_response Backend.status Backend.data].
  eexists. split; [reflexivity|].
  destruct (decide (st = 401)) as [->|H1]; [split; reflexivity|].
  destruct (decide (st = 429)) as [->|H2]; [split; reflexivity|].
  destruct (decide (st = 426)) as [->|H3]; [split; reflexivity|].
  destruct (decide (st = 500)) as [->|H4]; [split; reflexivity|].
  rewrite !status_default by assumption. split; [reflexivity|].
  cbn [Backend.error_text]. unfold or_else.
  destruct m as [s|]; [|reflexivity].
  destruct (truthy s) eqn:Hs; [exact Hs | reflexivity].
Qed.

(** X18. [handleAPIError] follows the table whenever the body of the
    upstream answer is not [null]: upstream status 401, 429, 426 and 500
    give the codes and fixed messages for an invalid API key, the rate
    limit, the paid plan and the upstream server error; every other status
    gives [API_ERROR] with the message the upstream body provides
    (['Unknown error'] when it provides none); no response gives
    [NETWORK_ERROR] with the fixed connection message; and what is
    returned has the code of exactly one kind of the spec's taxonomy. But
    the message is read off the body before the status is looked at: with
    a response whose body is [null], [handleAPIError] throws, whatever the
    status, and maps the failure to no kind at all; it throws in no other
    case. *)
Theorem handleAPIError_table :
  (forall m,
     Backend.handleAPIError
       {| Backend.error_response :=
            Some {| Backend.status := 401;
                    Backend.data := Backend.DataValue m |} |}
     = Backend.Returns
         {| Backend.error_text :=
              js "Invalid API key. Please check your NewsAPI key.";
            Backend.code := js "INVALID_API_KEY" |})
  /\ (forall m,
        Backend.handleAPIError
          {| Backend.error_response :=
               Some {| Backend.status := 429;
                       Backend.data := Backend.DataValue m |} |}
        = Backend.Returns
            {| Backend.error_text :=
                 js "API rate limit exceeded. Free tier allows 100 requests per day.";
               Backend.code := js "RATE_LIMIT_EXCEEDED" |})
  /\ (forall m,
        Backend.handleAPIError
          {| Backend.error_response :=
               Some {| Backend.status := 426;
                       Backend.data := Backend.DataValue m |} |}
        = Backend.Returns
            {| Backend.error_text :=
                 js "This request requires a paid NewsAPI plan.";
               Backend.code := js "UPGRADE_REQUIRED" |})
  /\ (forall m,
        Backend.handleAPIError
          {| Backend.error_response :=
               Some {| Backend.status := 500;
                       Backend.data := Backend.DataValue m |} |}
        = Backend.Returns
            {| Backend.error_text :=
                 js "NewsAPI server error. Please try again later.";
               Backend.code := js "SERVER_ERROR" |})
  /\ (forall st m,
        st <> 401 -> st <> 429 -> st <> 426 -> st <> 500 ->
        Backend.handleAPIError
          {| Backend.error_response :=
               Some {| Backend.status := st;
                       Backend.data := Backend.DataValue m |} |}
        = Backend.Returns
            {| Backend.error_text := or_else m (js "Unknown error");
               Backend.code := js "API_ERROR" |})
  /\ Backend.handleAPIError {| Backend.error_response := None |}
     = Backend.Returns
         {| Backend.error_text :=
              js "Unable to connect to NewsAPI. Check your internet connection.";
            Backend.code := js "NETWORK_ERROR" |}
  /\ (forall e x,
        Backend.handleAPIError e = Backend.Returns x ->
        Backend.code x
        = kind_code
            (error_kind (Backend.status <$> Backend.error_response e)))
  /\ (forall k k', kind_code k = kind_code k' -> k = k')
  /\ (forall st,
        Backend.handleAPIError
          {| Backend.error_response :=
               Some {| Backend.status := st;
                       Backend.data := Backend.DataNullish |} |}
        = Backend.Throws)
  /\ (forall e,
        Backend.handleAPIError e = Backend.Throws
        <-> exists r, Backend.error_response e = Some r
                      /\ Backend.data r = Backend.DataNullish).
Proof.
  split; [reflexivity|]. split; [reflexivity|]. split; [reflexivity|].
  split; [reflexivity|].
  split.
  { intros st m H1 H2 H3 H4. unfold Backend.handleAPIError.
    cbn [Backend.error_response Backend.status Backend.data].
    f_equal. apply status_default; assumption. }
  split; [reflexivity|].
  split.
  { intros [[[st [|m]]|]] x.
    - discriminate.
    - destruct (handleAPIError_returns st m) as (y & Hy & Hcode & _).
      rewrite Hy. intros [= <-]. exact Hcode.
    - intros [= <-]. reflexivity. }
  split.
  { intros k k' H.
    destruct k, k'; first [reflexivity | vm_compute in H; discriminate H]. }
  split; [reflexivity|].
  intros [[[st [|m]]|]]; split.
  - intros _. eexists. split; reflexivity.
  - reflexivity.
  - destruct (handleAPIError_returns st m) as (y & Hy & _).
    rewrite Hy. discriminate.
  - intros (r & [= <-] & Hr). discriminate Hr.
  - discriminate.
  - intros (r & Hr & _). discriminate Hr.
Qed.

Lemma handleAPIError_table_witness :
  Backend.handleAPIError
    {| Backend.error_response :=
         Some {| Backend.status := 404;
                 Backend.data := Backend.DataValue (Some (js "Not found")) |} |}
  = Backend.Returns
      {| Backend.error_text := js "Not found"; Backend.code := js "API_ERROR" |}.
Proof.
  destruct handleAPIError_table as (_ & _ & _ & _ & Hother & _).
  rewrite Hother by lia. reflexivity.
Defined.

(** C3. The claim fails on an upstream answer with status 401 and the
    JSON body [null]: [handleAPIError] reads the message off the body
    first and throws, so the failure gets no kind and no message, and the
    handler of the route, whose [catch] block made the call, ends without
    an answer of its own. *)
Example handleAPIError_null_body :
  Backend.handleAPIError
    {| Backend.error_response :=
         Some {| Backend.status := 401;
                 Backend.data := Backend.DataNullish |} |}
  = Backend.Throws
  /\ Routes.news (js "secret")
       (req_query (fetchNews_params 1793663999999 (js "technology")
                     initialFilters))
       (fun _ => Routes.UpstreamRejected
                   {| Backend.error_response :=
                        Some {| Backend.status := 401;
                                Backend.data := Backend.DataNullish |} |})
     = None.
Proof. split; vm_compute; reflexivity. Qed.

(** ** Start-up *)



(** ** [trim] and blank strings *)

Lemma trimStart_nil (s : jsstring) : trimStart s = [] <-> whitespace_only s.
Proof.
  unfold whitespace_only. induction s as [|c s IH]; cbn [trimStart].
  - split; [constructor | reflexivity].
  - destruct (is_whitespace c) eqn:Hc.
    + rewrite IH. split.
      * intros Hs. constructor; assumption.
      * intros Hs. apply Forall_cons in Hs. apply Hs.
    + split; [discriminate|].
      intros Hs. apply Forall_cons in Hs. destruct Hs as [Hc' _]. congruence.
Qed.

Lemma trimStart_head (s : jsstring) :
  match trimStart s with
  | [] => True
  | c :: _ => is_whitespace c = false
  end.
Proof.
  induction s as [|c s IH]; cbn [trimStart]; [exact I|].
  destruct (is_whitespace c) eqn:Hc; [exact IH | exact Hc].
Qed.

(** [s.trim()] is the empty string exactly when [s] is empty or white
    space only. *)
Lemma trim_nil (s : jsstring) : trim s = [] <-> whitespace_only s.
Proof.
  unfold trim, trimEnd. rewrite <- trimStart_nil. split.
  - intros Hrev.
    assert (Hin : trimStart (rev (trimStart s)) = []).
    { destruct (trimStart (rev (trimStart s))) as [|c l]; [reflexivity|].
      apply (f_equal length) in Hrev. rewrite length_rev in Hrev.
      discriminate Hrev. }
    apply trimStart_nil in Hin. unfold whitespace_only in Hin.
    apply List.Forall_rev in Hin. rewrite rev_involutive in Hin.
    pose proof (trimStart_head s) as Hhead.
    destruct (trimStart s) as [|c l]; [reflexivity|].
    apply Forall_cons in Hin. destruct Hin as [Hc _]. congruence.
  - intros ->. reflexivity.
Qed.

Lemma truthy_trim (s : jsstring) :
  truthy (trim s) = true <-> ~ whitespace_only s.
Proof.
  rewrite <- trim_nil. destruct (trim s) as [|c l]; cbn [truthy].
  - split; [discriminate | intros H; exfalso; apply H; reflexivity].
  - split; [intros _; discriminate | reflexivity].
Qed.

(** ** The request life cycle *)

(** C4 (as amended). A success answer with an empty article list leaves
    the component with the empty list, the spinner off and the text
    ['No articles found. Try different search terms or filters.'] in the
    [error] state variable, the one failures use; the results section then
    shows that text in the error message block, and nothing else. *)
Theorem fetchNews_empty_success (st : AppState) :
  articles (fetchNews_settle (Resolved (BodySuccess [])) st) = []
  /\ loading (fetchNews_settle (Resolved (BodySuccess [])) st) = false
  /\ error (fetchNews_settle (Resolved (BodySuccess [])) st)
     = Some (js "No articles found. Try different search terms or filters.")
  /\ error (fetchNews_settle (Resolved (BodySuccess [])) st)
     = error (fetchNews_settle
                (Resolved (BodyOther
                   (Some (js "No articles found. Try different search terms or filters."))))
                st)
  /\ render (fetchNews_settle (Resolved (BodySuccess [])) st)
     = [ErrorMessage
          (js "No articles found. Try different search terms or filters.")]
  /\ requestResult (fetchNews_settle (Resolved (BodySuccess [])) st)
     = Failure (js "No articles found. Try different search terms or filters.").
Proof. repeat split; reflexivity. Qed.

(** C4 as stated fails: after the first fetch is answered with success and
    no articles, what the results section shows is the error message
    block, and the request state read off the component is a failure. *)
Lemma empty_success_shows_error_message :
  render (app (run initialWorld
                 [Mount 1793663999999; Settle 0 (Resolved (BodySuccess []))]))
  = [ErrorMessage
       (js "No articles found. Try different search terms or filters.")]
  /\ requestResult (app (run initialWorld
                 [Mount 1793663999999; Settle 0 (Resolved (BodySuccess []))]))
     = Failure (js "No articles found. Try different search terms or filters.").
Proof. split; vm_compute; reflexivity. Qed.

Lemma fetchNews_params_q (now : Z) (query : jsstring)
    (f : gmap (list N) (list N)) :
  (js "q", toUSVString query) ∈ fetchNews_params now query f.
Proof.
  rewrite fetchNews_params_pairs. cbn [Datatypes.app].
  apply elem_of_cons. left. reflexivity.
Qed.

Lemma fetch_effect_carries now w :
  Forall carries_query (issued w) ->
  Forall carries_query (issued (fetch_effect now w)).
Proof.
  intros Hw. unfold fetch_effect.
  destruct (truthy (trim (searchQuery (app w)))) eqn:Hq; [|exact Hw].
  cbn [fetchNews_begin issued]. apply Forall_cons. split; [|exact Hw].
  exists (toUSVString (searchQuery (app w))). split.
  - apply fetchNews_params_q.
  - rewrite whitespace_only_toUSVString. apply truthy_trim, Hq.
Qed.

Lemma step_carries w e :
  Forall carries_query (issued w) -> Forall carries_query (issued (step w e)).
Proof.
  intros Hw. destruct e as [now|now value|now filterType value|id o];
    cbn [step].
  - apply fetch_effect_carries, Hw.
  - case_bool_decide; [exact Hw|]. apply fetch_effect_carries. exact Hw.
  - apply fetch_effect_carries. exact Hw.
  - case_bool_decide; exact Hw.
Qed.

Lemma run_carries es w :
  Forall carries_query (issued w) -> Forall carries_query (issued (run w es)).
Proof.
  revert w. induction es as [|e es IH]; intros w Hw; [exact Hw|].
  cbn [run foldl]. apply IH, step_carries, Hw.
Qed.

Lemma fetch_effect_blank now w :
  whitespace_only (searchQuery (app w)) -> fetch_effect now w = w.
Proof.
  intros Hblank. apply trim_nil in Hblank. unfold fetch_effect.
  rewrite Hblank. reflexivity.
Qed.

(** C5 (as amended). While the query is empty or white space only, no
    trigger issues a call for articles and each leaves the request state
    as it was: changing the query to such a string, changing a filter while
    the query is one, mounting with one. An idle state stays idle and no
    spinner is started, but results or an error message already there stay
    where they are. Over any sequence of events, every call issued carries
    a query that is not blank. *)
Theorem blank_query_no_fetch :
  (forall w now value, whitespace_only value ->
     issued (step w (SearchChange now value)) = issued w
     /\ pending (step w (SearchChange now value)) = pending w
     /\ requestResult (app (step w (SearchChange now value)))
        = requestResult (app w))
  /\ (forall w now filterType value, whitespace_only (searchQuery (app w)) ->
        issued (step w (FilterChange now filterType value)) = issued w
        /\ pending (step w (FilterChange now filterType value)) = pending w
        /\ requestResult (app (step w (FilterChange now filterType value)))
           = requestResult (app w))
  /\ (forall w now, whitespace_only (searchQuery (app w)) ->
        step w (Mount now) = w)
  /\ (forall es, Forall carries_query (issued (run initialWorld es))).
Proof.
  split; [|split; [|split]].
  - intros w now value Hblank. cbn [step].
    case_bool_decide as Hsame; [repeat split; reflexivity|].
    rewrite fetch_effect_blank by exact Hblank.
    repeat split; reflexivity.
  - intros w now filterType value Hblank. cbn [step].
    rewrite fetch_effect_blank by exact Hblank.
    repeat split; reflexivity.
  - intros w now Hblank. cbn [step]. apply fetch_effect_blank, Hblank.
  - intros es. apply run_carries. constructor.
Qed.

Lemma blank_query_no_fetch_witness :
  issued (step initialWorld (SearchChange 1793663999999 (js "   "))) = []
  /\ requestResult (app (step initialWorld (SearchChange 1793663999999 (js "   "))))
     = Idle.
Proof.
  destruct blank_query_no_fetch as (Hsearch & _).
  assert (Hblank : whitespace_only (js "   "))
    by (apply trim_nil; vm_compute; reflexivity).
  destruct (Hsearch initialWorld 1793663999999 (js "   ") Hblank)
    as (Hissued & _ & Hstate).
  split; [exact Hissued | exact Hstate].
Defined.

(** C5 as stated fails: after a fetch has failed, clearing the query to
    blanks issues no further call but the request state is still the
    failure; it does not return to idle. *)
Lemma blank_query_keeps_failure :
  whitespace_only (js "   ")
  /\ requestResult
       (app (run initialWorld
               [Mount 1793663999999; Settle 0 Rejected;
                SearchChange 1793664000000 (js "   ")]))
     = Failure (js "Failed to connect to the server. Make sure the backend is running on port 5000.")
  /\ requestResult
       (app (run initialWorld
               [Mount 1793663999999; Settle 0 Rejected;
                SearchChange 1793664000000 (js "   ")]))
     <> Idle.
Proof.
  split; [apply trim_nil; vm_compute; reflexivity|].
  split; vm_compute; [reflexivity | discriminate].
Qed.

Lemma settle_pending id o w :
  id ∈ pending w ->
  step w (Settle id o)
  = {| app := fetchNews_settle o (app w);
       issued := issued w;
       pending := filter (fun i => i <> id) (pending w) |}.
Proof.
  intros Hin. cbn [step]. rewrite bool_decide_eq_true_2 by exact Hin.
  reflexivity.
Qed.

Lemma fetch_effect_fires now w :
  length (issued (fetch_effect now w)) = S (length (issued w)) ->
  pending (fetch_effect now w) = length (issued w) :: pending w.
Proof.
  unfold fetch_effect. destruct (truthy (trim (searchQuery (app w)))).
  - reflexivity.
  - intros H. lia.
Qed.

(** An event that issues a call is a trigger, and the invocation it starts
    awaits the answer under the number of the call. *)
Lemma step_fires w e :
  length (issued (step w e)) = S (length (issued w)) ->
  pending (step w e) = length (issued w) :: pending w.
Proof.
  destruct e as [now|now value|now filterType value|id o]; cbn [step].
  - apply fetch_effect_fires.
  - case_bool_decide; [intros Hlen; lia|].
    apply (fetch_effect_fires now (with_app _ w)).
  - apply (fetch_effect_fires now (with_app _ w)).
  - case_bool_decide; cbn [issued]; intros Hlen; lia.
Qed.

Lemma render_cases (st : AppState) :
  render st
  = if loading st then [LoadingSpinner]
    else if truthy_prop (error st)
    then [ErrorMessage (default [] (error st))]
    else match articles st with
         | _ :: _ => [ResultsAndNewsList (articles st)]
         | [] => if truthy (searchQuery st) then [] else [WelcomeMessage]
         end.
Proof.
  unfold render.
  destruct (loading st), (truthy_prop (error st)), (articles st),
    (truthy (searchQuery st)); reflexivity.
Qed.

Lemma two_fetches_pending w e1 e2 :
  length (issued (step w e1)) = S (length (issued w)) ->
  length (issued (run w [e1; e2])) = S (S (length (issued w))) ->
  pending (step (step w e1) e2)
  = S (length (issued w)) :: length (issued w) :: pending w.
Proof.
  unfold run. cbn [foldl]. intros H1 H2.
  pose proof (step_fires w e1 H1) as Hp1.
  rewrite <- Hp1, <- H1. apply step_fires. rewrite H2, H1. reflexivity.
Qed.








(** ** [truncateText] *)

Lemma substring_prefix (s : jsstring) (n : Z) :
  0 <= n -> n <= Z.of_nat (length s) -> substring s 0 n = take (Z.to_nat n) s.
Proof.
  intros Hn Hlen. unfold substring, clamp.
  replace (Z.min (Z.max 0 0) (Z.of_nat (length s))) with 0 by lia.
  replace (Z.min (Z.max n 0) (Z.of_nat (length s))) with n by lia.
  replace (Z.min 0 n) with 0 by lia.
  replace (Z.max 0 n - 0) with n by lia.
  reflexivity.
Qed.

(** C9. [truncateText] always returns: a [null], [undefined] or empty text
    gives the empty string; a text of at most [maxLength] code units is
    returned unchanged; and, [maxLength] being a length (not negative), a
    longer text gives exactly its first [maxLength] code units followed by
    three dots, so that no result is longer than [maxLength + 3]. *)
Theorem truncateText_bounded (text : option jsstring) (maxLength : Z) :
  (text = None \/ text = Some [] -> NewsCard.truncateText text maxLength = [])
  /\ (forall t, text = Some t -> Z.of_nat (length t) <= maxLength ->
        NewsCard.truncateText text maxLength = t)
  /\ (0 <= maxLength ->
      (forall t, text = Some t -> maxLength < Z.of_nat (length t) ->
         NewsCard.truncateText text maxLength
           = take (Z.to_nat maxLength) t ++ js "..."
         /\ Z.of_nat (length (NewsCard.truncateText text maxLength))
              = maxLength + 3)
      /\ Z.of_nat (length (NewsCard.truncateText text maxLength))
           <= maxLength + 3).
Proof.
  assert (Hshort : forall t : jsstring, Z.of_nat (length t) <= maxLength ->
            NewsCard.truncateText (Some t) maxLength = t).
  { intros t Hle. unfold NewsCard.truncateText.
    destruct t as [|c t]; [reflexivity|]. cbn [truthy negb].
    destruct (Z.leb_spec (Z.of_nat (length (c :: t))) maxLength);
      [reflexivity|lia]. }
  split; [intros [-> | ->]; reflexivity|].
  split; [intros t -> Hle; apply Hshort, Hle|].
  intros Hm.
  assert (Hlong : forall t : jsstring, maxLength < Z.of_nat (length t) ->
            NewsCard.truncateText (Some t) maxLength
              = take (Z.to_nat maxLength) t ++ js "..."
            /\ Z.of_nat (length (NewsCard.truncateText (Some t) maxLength))
                 = maxLength + 3).
  { intros t Hlt. unfold NewsCard.truncateText.
    destruct t as [|c t]; [simpl in Hlt; lia|]. cbn [truthy negb].
    destruct (Z.leb_spec (Z.of_nat (length (c :: t))) maxLength) as [Hle|_];
      [lia|].
    rewrite substring_prefix by lia. split; [reflexivity|].
    rewrite length_app, length_take. change (length (js "...")) with 3%nat.
    lia. }
  split; [intros t -> Hlt; apply Hlong, Hlt|].
  destruct text as [t|]; [|cbn; lia].
  destruct (Z.le_gt_cases (Z.of_nat (length t)) maxLength) as [Hle|Hgt].
  - rewrite Hshort by assumption. lia.
  - destruct (Hlong t) as [_ Hl]; [lia|]. rewrite Hl. lia.
Qed.

Lemma truncateText_bounded_witness :
  NewsCard.truncateText (Some (js "Breaking news")) 8 = js "Breaking..."
  /\ Z.of_nat (length (NewsCard.truncateText (Some (js "Breaking news")) 8))
       <= 8 + 3.
Proof.
  assert (H8 : 0 <= 8) by lia.
  destruct (truncateText_bounded (Some (js "Breaking news")) 8)
    as (_ & _ & Hlen).
  destruct (Hlen H8) as [Hlong Hbound].
  split; [|exact Hbound].
  destruct (Hlong (js "Breaking news") eq_refl) as [-> _];
    [vm_compute; reflexivity|].
  reflexivity.
Defined.

(** With a negative [maxLength], which no caller passes, [substring] takes
    nothing and the three dots alone are returned. *)
Example truncateText_negative :
  NewsCard.truncateText (Some (js "Breaking news")) (-1) = js "...".
Proof. reflexivity. Qed.

(** ** [handleFilterChange] *)

(** C10. [handleFilterChange] sets the named property to the new value and
    leaves every other property of the filter state as it was. *)
Theorem handleFilterChange_frame (prevFilters : gmap (list N) (list N))
    (filterType value : jsstring) :
  handleFilterChange filterType value prevFilters !! filterType = Some value
  /\ forall other, other <> filterType ->
       handleFilterChange filterType value prevFilters !! other
         = prevFilters !! other.
Proof.
  unfold handleFilterChange. split.
  - apply lookup_insert_eq.
  - intros other Hne. apply lookup_insert_ne. congruence.
Qed.

Lemma handleFilterChange_frame_witness :
  handleFilterChange (js "dateRange") (js "month") initialFilters
    !! js "dateRange" = Some (js "month")
  /\ handleFilterChange (js "dateRange") (js "month") initialFilters
       !! js "language" = Some (js "en").
Proof.
  destruct (handleFilterChange_frame initialFilters (js "dateRange") (js "month"))
    as [Hset Hframe].
  split; [exact Hset|].
  rewrite Hframe by (vm_compute; discriminate).
  vm_compute. reflexivity.
Defined.

(** ** Numbers in template literals *)

Lemma js_inj (s s' : string) : js s = js s' -> s = s'.
Proof.
  unfold js. intros H.
  rewrite <- (string_of_list_ascii_of_string s),
    <- (string_of_list_ascii_of_string s').
  f_equal. revert H. generalize (list_ascii_of_string s) as l,
    (list_ascii_of_string s') as l'.
  induction l as [|a l IH]; intros [|a' l'] H; try discriminate H;
    [reflexivity|].
  injection H as Ha Hl. f_equal; [|apply IH, Hl].
  rewrite <- (ascii_N_embedding a), <- (ascii_N_embedding a'). now rewrite Ha.
Qed.

(** Different numbers print differently. *)
Lemma Number_toString_inj (n n' : Z) :
  Number_toString n = Number_toString n' -> n = n'.
Proof.
  unfold Number_toString. intros H. apply js_inj in H.
  apply DecimalZ.to_int_inj.
  assert (Hnn : forall z, Z.to_int z <> Pos Nil /\ Z.to_int z <> Neg Nil).
  { intros [|p|p]; cbn; split; try discriminate;
      intros [= Hp]; exact (DecimalPos.Unsigned.to_uint_nonnil p Hp). }
  destruct (Hnn n) as [Hn1 Hn2], (Hnn n') as [Hn1' Hn2'].
  pose proof (NilZero.isi _ Hn1 Hn2) as Hi.
  rewrite H, (NilZero.isi _ Hn1' Hn2') in Hi. congruence.
Qed.

Lemma string_of_uint_digits (d : Decimal.uint) :
  Forall (fun c => is_digit c = true) (js (NilEmpty.string_of_uint d)).
Proof.
  induction d; cbn; constructor; first [reflexivity | assumption].
Qed.

(** A number that is not negative prints as digits alone. *)
Lemma Number_toString_digits (n : Z) :
  0 <= n -> Forall (fun c => is_digit c = true) (Number_toString n).
Proof.
  intros Hn. unfold Number_toString.
  destruct n as [|p|p]; [repeat constructor| |lia].
  cbn [Z.to_int NilZero.string_of_int NilZero.string_of_uint].
  pose proof (string_of_uint_digits (Pos.to_uint p)) as Hd.
  destruct (Pos.to_uint p); [repeat constructor|exact Hd ..].
Qed.

(** A negative number prints with a minus sign in front. *)
Lemma Number_toString_negative (n : Z) :
  n < 0 -> exists digits, Number_toString n = 45%N :: digits.
Proof.
  intros Hn. destruct n as [|p|p]; [lia|lia|].
  unfold Number_toString. cbn [Z.to_int NilZero.string_of_int].
  eexists. reflexivity.
Qed.

(** ** [getTimeAgo] *)

Section TimeAgo.
Variable parseDate : list N -> option Z.
Variable formatDate : list N -> list N.
Variable now : Z.

(** X1. For a date that parses, [getTimeAgo] picks its unit by the time
    elapsed: under an hour it counts minutes (fewer than 60), from an hour
    to under a day it counts hours (1 to 23), from a day to under a week
    it counts days (1 to 6), and from a week on it prints the date. *)
Theorem getTimeAgo_units (dateString : jsstring) (publishDate : Z) :
  parseDate dateString = Some publishDate ->
  (now - publishDate < 3600000 ->
     Card.getTimeAgo parseDate formatDate now dateString
       = Card.ago ((now - publishDate) / 60000) (js "minute")
     /\ (now - publishDate) / 60000 < 60
     /\ (0 <= now - publishDate -> 0 <= (now - publishDate) / 60000))
  /\ (3600000 <= now - publishDate < 86400000 ->
        Card.getTimeAgo parseDate formatDate now dateString
          = Card.ago ((now - publishDate) / 3600000) (js "hour")
        /\ 1 <= (now - publishDate) / 3600000 <= 23)
  /\ (86400000 <= now - publishDate < 604800000 ->
        Card.getTimeAgo parseDate formatDate now dateString
          = Card.ago ((now - publishDate) / 86400000) (js "day")
        /\ 1 <= (now - publishDate) / 86400000 <= 6)
  /\ (604800000 <= now - publishDate ->
        Card.getTimeAgo parseDate formatDate now dateString
          = formatDate dateString).
Proof.
  intros Hparse. unfold Card.getTimeAgo. rewrite Hparse. cbv zeta.
  generalize (now - publishDate). intros diffMs.
  repeat split; intros;
    repeat match goal with
           | |- context [?a <? ?b] => destruct (Z.ltb_spec a b)
           end;
    try reflexivity; Z.div_mod_to_equations; lia.
Qed.

(** X2. The two dates [getTimeAgo] was not written for: an invalid date
    falls through every comparison to [formatDate]; a date in the future
    is counted in minutes, with a negative count and the plural. *)
Theorem getTimeAgo_edges (dateString : jsstring) :
  (parseDate dateString = None ->
     Card.getTimeAgo parseDate formatDate now dateString
       = formatDate dateString)
  /\ (forall publishDate,
        parseDate dateString = Some publishDate -> now < publishDate ->
        (now - publishDate) / 60000 <= -1
        /\ exists digits,
             Card.getTimeAgo parseDate formatDate now dateString
               = 45%N :: digits ++ js " minutes ago").
Proof.
  unfold Card.getTimeAgo. split.
  - intros ->. reflexivity.
  - intros publishDate -> Hfuture. cbv zeta.
    assert (Hneg : (now - publishDate) / 60000 <= -1)
      by (Z.div_mod_to_equations; lia).
    split; [exact Hneg|].
    destruct (Z.ltb_spec ((now - publishDate) / 60000) 60) as [_|Hge]; [|lia].
    unfold Card.ago.
    destruct (Number_toString_negative ((now - publishDate) / 60000))
      as [digits Hdigits]; [lia|].
    destruct (Z.eqb_spec ((now - publishDate) / 60000) 1) as [Heq|_]; [lia|].
    exists digits. rewrite Hdigits. cbn [negb].
    change (js " " ++ js "minute" ++ js "s" ++ js " ago")
      with (js " minutes ago").
    reflexivity.
Qed.

End TimeAgo.

Lemma getTimeAgo_units_witness :
  Card.getTimeAgo (fun _ => Some 1793660000000) (fun _ => js "Nov 2, 2026")
    1793663999999 (js "2026-11-02T22:53:20Z")
  = js "1 hour ago".
Proof.
  destruct (getTimeAgo_units (fun _ => Some 1793660000000)
              (fun _ => js "Nov 2, 2026") 1793663999999
              (js "2026-11-02T22:53:20Z") 1793660000000 eq_refl)
    as (_ & Hhours & _).
  destruct Hhours as [-> _]; [lia|]. vm_compute. reflexivity.
Defined.

Lemma getTimeAgo_edges_witness :
  exists digits,
    Card.getTimeAgo (fun _ => Some 1793664060000) (fun _ => js "Nov 2, 2026")
      1793663999999 (js "2026-11-03T00:01:00Z")
    = 45%N :: digits ++ js " minutes ago".
Proof.
  destruct (getTimeAgo_edges (fun _ => Some 1793664060000)
              (fun _ => js "Nov 2, 2026") 1793663999999
              (js "2026-11-03T00:01:00Z")) as [_ Hfuture].
  destruct (Hfuture 1793664060000 eq_refl ltac:(lia)) as (_ & Hd).
  exact Hd.
Defined.

(** ** Cards and the list *)

Lemma truncateText_short (t : jsstring) (maxLength : Z) :
  Z.of_nat (length t) <= maxLength ->
  NewsCard.truncateText (Some t) maxLength = t.
Proof.
  intros Hle. unfold NewsCard.truncateText.
  destruct t as [|c t]; [reflexivity|]. cbn [truthy negb].
  destruct (Z.leb_spec (Z.of_nat (length (c :: t))) maxLength);
    [reflexivity|lia].
Qed.

Lemma truncateText_length (text : option jsstring) (maxLength : Z) :
  0 <= maxLength ->
  Z.of_nat (length (NewsCard.truncateText text maxLength)) <= maxLength + 3.
Proof.
  intros Hm. destruct text as [t|]; [|cbn; lia].
  unfold NewsCard.truncateText.
  destruct t as [|c t]; [cbn; lia|]. cbn [truthy negb].
  destruct (Z.leb_spec (Z.of_nat (length (c :: t))) maxLength) as [Hle|Hgt];
    [lia|].
  rewrite substring_prefix by lia.
  rewrite length_app, length_take. change (length (js "...")) with 3%nat. lia.
Qed.

Lemma truncateText_truthy (t : jsstring) (maxLength : Z) :
  truthy t = true -> truthy (NewsCard.truncateText (Some t) maxLength) = true.
Proof.
  intros Ht. unfold NewsCard.truncateText. rewrite Ht. cbn [negb].
  destruct (Z.of_nat (length t) <=? maxLength); [exact Ht|].
  destruct (substring t 0 maxLength); reflexivity.
Qed.

Lemma truncateText_nonempty (t : jsstring) (maxLength : Z) :
  truthy t = true -> NewsCard.truncateText (Some t) maxLength <> [].
Proof.
  intros Ht Hnil. pose proof (truncateText_truthy t maxLength Ht) as Hne.
  rewrite Hnil in Hne. discriminate Hne.
Qed.

(** The results section, condition by condition. *)
Section Cards.
Variable parseDate : list N -> option Z.
Variable formatDate : list N -> list N.
Variable now : Z.

(** X3. What a card shows of an article: the title cut to at most 103 code
    units (whole when it has at most 100) and empty when the article has
    none; the description block only for a description that is not empty,
    and then a text that is not empty and has at most 153 code units; the
    image and the author only when they are not empty. *)
Theorem NewsCard_shows (article : Article) :
  (length (Card.card_title (Card.NewsCard parseDate formatDate now article))
     <= 103)%nat
  /\ (forall t, title article = Some t -> (length t <= 100)%nat ->
        Card.card_title (Card.NewsCard parseDate formatDate now article) = t)
  /\ (title article = None ->
        Card.card_title (Card.NewsCard parseDate formatDate now article) = [])
  /\ (Card.card_description (Card.NewsCard parseDate formatDate now article)
        = None
      <-> description article = None \/ description article = Some [])
  /\ (forall shown,
        Card.card_description (Card.NewsCard parseDate formatDate now article)
          = Some shown ->
        shown <> [] /\ (length shown <= 153)%nat)
  /\ (forall src,
        Card.card_image (Card.NewsCard parseDate formatDate now article)
          = Some src ->
        src <> [] /\ urlToImage article = Some src)
  /\ (forall by_,
        Card.card_author (Card.NewsCard parseDate formatDate now article)
          = Some by_ ->
        by_ <> [] /\ author article = Some by_).
Proof.
  unfold Card.NewsCard.
  cbn [Card.card_title Card.card_description Card.card_image Card.card_author].
  split.
  { pose proof (truncateText_length (title article) 100 ltac:(lia)). lia. }
  split.
  { intros t -> Hlen. apply truncateText_short. lia. }
  split; [intros ->; reflexivity|].
  split.
  { destruct (description article) as [[|c d]|]; cbn [truthy_prop truthy];
      split; intros H; try discriminate H; try reflexivity;
      first [left; reflexivity | right; reflexivity
            | destruct H as [H|H]; discriminate H]. }
  split.
  { intros shown. destruct (description article) as [d|] eqn:Hd;
      cbn [truthy_prop]; [|discriminate].
    destruct (truthy d) eqn:Ht; [|discriminate]. intros [= <-]. split.
    - apply (truncateText_nonempty d 150 Ht).
    - change (length (NewsCard.truncateText (Some d) 150) <= 153)%nat.
      pose proof (truncateText_length (Some d) 150 ltac:(lia)). lia. }
  split.
  - intros src. destruct (urlToImage article) as [[|c u]|];
      cbn [truthy_prop truthy]; try discriminate.
    intros [= <-]. split; [discriminate|reflexivity].
  - intros by_. destruct (author article) as [[|c u]|];
      cbn [truthy_prop truthy]; try discriminate.
    intros [= <-]. split; [discriminate|reflexivity].
Qed.

Lemma last_segment_inj (sep : N) (x x' d d' : jsstring) :
  sep ∉ d -> sep ∉ d' -> x ++ sep :: d = x' ++ sep :: d' -> d = d'.
Proof.
  intros Hd Hd'. revert x'. induction x as [|c x IH]; intros [|c' x'] H.
  - cbn in H. congruence.
  - cbn in H. injection H as _ H. exfalso. apply Hd. rewrite H. set_solver.
  - cbn in H. injection H as _ H. exfalso. apply Hd'. rewrite <- H. set_solver.
  - cbn in H. injection H as _ H. apply (IH x' H).
Qed.

Lemma digits_no_hyphen (n : Z) : 0 <= n -> 45%N ∉ Number_toString n.
Proof.
  intros Hn Hin. pose proof (Number_toString_digits n Hn) as Hd.
  rewrite Forall_forall in Hd. specialize (Hd _ Hin). discriminate Hd.
Qed.

(** The index can be read off the key, whatever the URL. *)
Lemma card_key_inj (i j : nat) (a b : Article) :
  Card.card_key i a = Card.card_key j b -> i = j.
Proof.
  unfold Card.card_key. change (js "-") with [45%N]. cbn [Datatypes.app].
  intros H. apply last_segment_inj in H; try (apply digits_no_hyphen; lia).
  apply Number_toString_inj in H. lia.
Qed.

(** X4. [NewsList] shows its empty state for a missing or empty list and
    otherwise one card per article, in the order of the list, under React
    keys that are pairwise distinct whatever the URLs of the articles
    are, equal ones included. *)
Theorem NewsList_cards (l : list Article) :
  Card.NewsList parseDate formatDate now None = Card.NewsListEmpty
  /\ Card.NewsList parseDate formatDate now (Some []) = Card.NewsListEmpty
  /\ (l <> [] ->
      exists cards,
        Card.NewsList parseDate formatDate now (Some l)
          = Card.NewsListGrid cards
        /\ cards.*2 = Card.NewsCard parseDate formatDate now <$> l
        /\ (forall i a, l !! i = Some a ->
              cards.*1 !! i = Some (url a ++ js "-" ++ Number_toString (Z.of_nat i)))
        /\ NoDup cards.*1).
Proof.
  split; [reflexivity|]. split; [reflexivity|].
  intros Hl. unfold Card.NewsList.
  destruct l as [|a0 l0] eqn:El; [congruence|]. rewrite <- El in *.
  replace (length l =? 0)%nat with false by (rewrite El; reflexivity).
  eexists. split; [reflexivity|].
  split; [|split].
  - apply list_eq. intros i.
    rewrite !list_lookup_fmap, list_lookup_imap.
    destruct (l !! i); reflexivity.
  - intros i a Hi. rewrite list_lookup_fmap, list_lookup_imap, Hi.
    reflexivity.
  - apply NoDup_alt. intros i j k Hi Hj.
    rewrite list_lookup_fmap, list_lookup_imap in Hi, Hj.
    destruct (l !! i) as [a|]; [|discriminate].
    destruct (l !! j) as [b|]; [|discriminate].
    cbn in Hi, Hj. injection Hi as Hi. injection Hj as Hj.
    apply (card_key_inj i j a b). congruence.
Qed.

(** X5. [App] hands [NewsList] a list only when it has articles: whenever
    the results section shows the list, the list is the [articles] state,
    it is not empty, and [NewsList] shows cards, never its empty state. *)
Theorem App_never_shows_empty_list (st : AppState) (shown : list Article) :
  ResultsAndNewsList shown ∈ render st ->
  shown = articles st /\ shown <> []
  /\ Card.NewsList parseDate formatDate now (Some shown) <> Card.NewsListEmpty.
Proof.
  rewrite render_cases. intros Hin.
  assert (Hshown : shown = articles st /\ shown <> []).
  { destruct (loading st);
      [apply list_elem_of_singleton in Hin; discriminate Hin|].
    destruct (truthy_prop (error st));
      [apply list_elem_of_singleton in Hin; discriminate Hin|].
    destruct (articles st) as [|a l].
    { destruct (truthy (searchQuery st));
        [apply elem_of_nil in Hin; contradiction
        |apply list_elem_of_singleton in Hin; discriminate Hin]. }
    apply list_elem_of_singleton in Hin. injection Hin as ->.
    split; [reflexivity | discriminate]. }
  destruct Hshown as [Heq Hne]. split; [exact Heq|]. split; [exact Hne|].
  unfold Card.NewsList. destruct shown; [congruence|]. discriminate.
Qed.

End Cards.

Lemma NewsCard_shows_witness :
  Card.card_description
    (Card.NewsCard (fun _ => None) (fun s => s) 0
       {| title := None; description := Some []; url := js "u";
          urlToImage := None; source_name := js "s"; publishedAt := js "p";
          author := None |}) = None.
Proof.
  apply (NewsCard_shows (fun _ => None) (fun s => s) 0). right. reflexivity.
Defined.

Lemma NewsList_cards_witness :
  exists cards,
    Card.NewsList (fun _ => None) (fun s => s) 0 (Some [article_one; article_one])
      = Card.NewsListGrid cards
    /\ NoDup cards.*1.
Proof.
  destruct (NewsList_cards (fun _ => None) (fun s => s) 0
              [article_one; article_one]) as (_ & _ & Hgrid).
  destruct (Hgrid ltac:(discriminate)) as (cards & Heq & _ & _ & Hnodup).
  exists cards. split; [exact Heq | exact Hnodup].
Defined.

Lemma App_never_shows_empty_list_witness :
  Card.NewsList (fun _ => None) (fun s => s) 0 (Some [article_one])
    <> Card.NewsListEmpty.
Proof.
  apply (App_never_shows_empty_list (fun _ => None) (fun s => s) 0
           {| articles := [article_one]; loading := false; error := None;
              searchQuery := js "technology"; filters := initialFilters |}
           [article_one]).
  vm_compute. left.
Defined.

(** ** The results section *)

(** X6. The results section shows at most one thing: the spinner alone
    while loading, whatever else is in the state; it shows nothing at all
    exactly when nothing is loading, there is no error and no article, and
    the query is not empty; and the welcome message exactly when, with all
    that, the query is empty. *)
Theorem render_one_panel (st : AppState) :
  (length (render st) <= 1)%nat
  /\ (loading st = true -> render st = [LoadingSpinner])
  /\ (render st = []
      <-> loading st = false /\ truthy_prop (error st) = false
          /\ articles st = [] /\ searchQuery st <> [])
  /\ (WelcomeMessage ∈ render st
      <-> loading st = false /\ truthy_prop (error st) = false
          /\ articles st = [] /\ searchQuery st = []).
Proof.
  rewrite render_cases.
  destruct (loading st), (truthy_prop (error st)), (articles st) as [|a l],
    (searchQuery st) as [|c q]; cbn [truthy length];
    (split; [lia|]); (split; [try reflexivity; discriminate|]);
    split; split;
    try (intros H; discriminate H);
    try (intros (H1 & H2 & H3 & H4); first [discriminate | congruence]);
    try (intros H; apply list_elem_of_singleton in H; discriminate H);
    try (intros H; apply elem_of_nil in H; contradiction);
    try (intros _; repeat split; first [reflexivity | discriminate]);
    try (intros _; apply list_elem_of_singleton; reflexivity).
Qed.

Lemma render_one_panel_witness :
  render {| articles := [article_one]; loading := true;
            error := Some (js "Failed to fetch news");
            searchQuery := js "technology"; filters := initialFilters |}
  = [LoadingSpinner].
Proof.
  apply (render_one_panel
           {| articles := [article_one]; loading := true;
              error := Some (js "Failed to fetch news");
              searchQuery := js "technology"; filters := initialFilters |}).
  reflexivity.
Defined.

(** ** Calls and answers over a run *)

Lemma fetchNews_begin_consistent now w :
  consistent w -> consistent (fetchNews_begin now w).
Proof.
  intros (Hids & Hpending & Hnodup & _). unfold consistent.
  cbn [fetchNews_begin issued pending app loading fmap list_fmap fst length].
  split; [|split; [|split]].
  - rewrite seq_S, rev_app_distr. cbn [rev Datatypes.app]. f_equal. exact Hids.
  - intros id Hid. apply elem_of_cons in Hid as [->|Hid]; [lia|].
    specialize (Hpending id Hid). lia.
  - apply NoDup_cons. split; [|exact Hnodup].
    intros Hin. specialize (Hpending _ Hin). lia.
  - intros _. discriminate.
Qed.

Lemma with_app_consistent st w :
  loading st = loading (app w) -> consistent w -> consistent (with_app st w).
Proof.
  intros Hl (Hids & Hpending & Hnodup & Hspin). unfold consistent.
  cbn [with_app issued pending app]. rewrite Hl. repeat split; assumption.
Qed.

Lemma fetch_effect_consistent now w :
  consistent w -> consistent (fetch_effect now w).
Proof.
  intros Hw. unfold fetch_effect.
  destruct (truthy (trim (searchQuery (app w))));
    [apply fetchNews_begin_consistent|]; exact Hw.
Qed.

Lemma step_consistent w e : consistent w -> consistent (step w e).
Proof.
  intros Hw. destruct e as [now|now value|now filterType value|id o];
    cbn [step].
  - apply fetch_effect_consistent, Hw.
  - case_bool_decide; [exact Hw|].
    apply fetch_effect_consistent, with_app_consistent; [reflexivity|exact Hw].
  - apply fetch_effect_consistent, with_app_consistent; [reflexivity|exact Hw].
  - case_bool_decide; [|exact Hw].
    destruct Hw as (Hids & Hpending & Hnodup & _). unfold consistent.
    cbn [issued pending app]. split; [exact Hids|].
    split; [|split].
    + intros i Hi. apply list_elem_of_filter in Hi as [_ Hi].
      apply Hpending, Hi.
    + apply NoDup_filter, Hnodup.
    + destruct o as [[l|m]|]; cbn; discriminate.
Qed.

(** X7. Over every sequence of events from the initial state: the calls
    issued are numbered 0, 1, 2, ... in the order they were issued; every
    invocation awaiting an answer awaits it for an issued call, and once;
    and the spinner is on only while some invocation awaits its answer, so
    that when every call has been answered the spinner is off. *)
Theorem run_consistent (es : list event) :
  consistent (run initialWorld es)
  /\ (pending (run initialWorld es) = [] ->
      loading (app (run initialWorld es)) = false).
Proof.
  assert (Hrun : forall w, consistent w -> consistent (run w es)).
  { induction es as [|e es' IH]; intros w Hw; [exact Hw|].
    cbn [run foldl]. apply IH, step_consistent, Hw. }
  assert (Hinit : consistent initialWorld).
  { unfold consistent. cbn. repeat split; try discriminate.
    - intros id Hid. apply elem_of_nil in Hid. contradiction.
    - apply NoDup_nil_2. }
  pose proof (Hrun _ Hinit) as Hc. split; [exact Hc|].
  destruct Hc as (_ & _ & _ & Hspin). intros Hp.
  destruct (loading (app (run initialWorld es))); [|reflexivity].
  exfalso. apply (Hspin eq_refl Hp).
Qed.

Lemma run_consistent_witness :
  loading (app (run initialWorld
                  [Mount 1793663999999; Settle 0 Rejected])) = false.
Proof.
  apply (run_consistent [Mount 1793663999999; Settle 0 Rejected]).
  vm_compute. reflexivity.
Defined.

(** The spinner can be off while a call is still unanswered: the first of
    two overlapping fetches is answered. *)
Example spinner_off_while_pending :
  loading (app (run initialWorld
                  [Mount 1793663999999;
                   FilterChange 1793664000000 (js "language") (js "fr");
                   Settle 0 Rejected])) = false
  /\ pending (run initialWorld
                [Mount 1793663999999;
                 FilterChange 1793664000000 (js "language") (js "fr");
                 Settle 0 Rejected]) = [1%nat].
Proof. split; vm_compute; reflexivity. Qed.

(** X8. When two triggers in a row each start a fetch and the first fetch
    fails, its failure message stays on the screen although the second
    fetch then succeeds with articles: the articles are stored, but the
    error set by the first answer is not cleared by the second, and the
    results section shows the error message instead of the articles. *)
Theorem stale_failure_hides_results (w : World) (e1 e2 : event)
    (data_articles : list Article) :
  length (issued (step w e1)) = S (length (issued w)) ->
  length (issued (run w [e1; e2])) = S (S (length (issued w))) ->
  data_articles <> [] ->
  articles
    (app (run w [e1; e2;
                 Settle (length (issued w)) Rejected;
                 Settle (S (length (issued w)))
                   (Resolved (BodySuccess data_articles))]))
  = data_articles
  /\ render
       (app (run w [e1; e2;
                    Settle (length (issued w)) Rejected;
                    Settle (S (length (issued w)))
                      (Resolved (BodySuccess data_articles))]))
     = [ErrorMessage
          (js "Failed to connect to the server. Make sure the backend is running on port 5000.")].
Proof.
  intros H1 H2 Hne.
  pose proof (two_fetches_pending w e1 e2 H1 H2) as Hp2.
  unfold run. cbn [foldl].
  set (w2 := step (step w e1) e2) in *.
  rewrite (settle_pending (length (issued w))) by (rewrite Hp2; set_solver).
  rewrite settle_pending.
  2:{ cbn [pending]. rewrite Hp2. apply list_elem_of_filter.
      split; [lia | set_solver]. }
  cbn [app]. split; [reflexivity|].
  rewrite render_cases. cbn [fetchNews_settle loading error articles].
  destruct data_articles as [|a l]; [congruence|]. reflexivity.
Qed.

Lemma stale_failure_hides_results_witness :
  render
    (app (run initialWorld
            [Mount 1793663999999;
             FilterChange 1793664000000 (js "language") (js "fr");
             Settle 0 Rejected;
             Settle 1 (Resolved (BodySuccess [article_two]))]))
  = [ErrorMessage
       (js "Failed to connect to the server. Make sure the backend is running on port 5000.")].
Proof.
  apply (stale_failure_hides_results initialWorld (Mount 1793663999999)
           (FilterChange 1793664000000 (js "language") (js "fr"))
           [article_two]);
    [vm_compute; reflexivity | vm_compute; reflexivity | discriminate].
Defined.

(** ** Triggers *)

Lemma fetch_effect_fetches now w :
  ~ whitespace_only (searchQuery (app w)) ->
  fetch_effect now w = fetchNews_begin now w.
Proof.
  intros Hq. apply truthy_trim in Hq. unfold fetch_effect. rewrite Hq.
  reflexivity.
Qed.

(** X9. Typing the query that is already there changes nothing and
    fetches nothing. Choosing for a filter the value it already has leaves
    the filter state as it is and yet, the query not being blank, fetches
    again: one more call, made with the query and the filters as they
    are, the error cleared and the spinner alone on the screen. *)
Theorem same_value_triggers (w : World) (now : Z) :
  step w (SearchChange now (searchQuery (app w))) = w
  /\ (forall filterType value,
        filters (app w) !! filterType = Some value ->
        ~ whitespace_only (searchQuery (app w)) ->
        filters (app (step w (FilterChange now filterType value)))
          = filters (app w)
        /\ issued (step w (FilterChange now filterType value))
           = (length (issued w),
              fetchNews_params now (searchQuery (app w)) (filters (app w)))
               :: issued w
        /\ error (app (step w (FilterChange now filterType value))) = None
        /\ render (app (step w (FilterChange now filterType value)))
           = [LoadingSpinner]).
Proof.
  split.
  - cbn [step]. rewrite bool_decide_eq_true_2 by reflexivity. reflexivity.
  - intros filterType value Hsame Hq. cbn [step].
    rewrite fetch_effect_fetches by exact Hq.
    unfold handleFilterChange. rewrite (insert_id _ _ _ Hsame).
    repeat split; reflexivity.
Qed.

Lemma same_value_triggers_witness :
  length (issued (step initialWorld
                    (FilterChange 1793663999999 (js "language") (js "en"))))
  = 1%nat.
Proof.
  destruct (same_value_triggers initialWorld 1793663999999) as [_ Hfilter].
  destruct (Hfilter (js "language") (js "en"))
    as (_ & Hissued & _).
  - vm_compute. reflexivity.
  - intros Hblank. apply trim_nil in Hblank. vm_compute in Hblank.
    discriminate Hblank.
  - rewrite Hissued. reflexivity.
Defined.

(** ** Filter changes *)

(** X10. Filter changes compose as assignments do: changes to two
    different filters give the same state in either order, of two changes
    to the same filter the later one wins, and choosing the value a
    filter already has changes nothing. *)
Theorem handleFilterChange_compose (filters : gmap (list N) (list N))
    (filterType1 filterType2 value1 value2 : jsstring) :
  (filterType1 <> filterType2 ->
     handleFilterChange filterType1 value1
       (handleFilterChange filterType2 value2 filters)
     = handleFilterChange filterType2 value2
         (handleFilterChange filterType1 value1 filters))
  /\ handleFilterChange filterType1 value2
       (handleFilterChange filterType1 value1 filters)
     = handleFilterChange filterType1 value2 filters
  /\ (filters !! filterType1 = Some value1 ->
        handleFilterChange filterType1 value1 filters = filters).
Proof.
  unfold handleFilterChange. split; [|split].
  - intros Hne. apply insert_insert_ne. exact Hne.
  - apply insert_insert_eq.
  - apply insert_id.
Qed.

Lemma handleFilterChange_compose_witness :
  handleFilterChange (js "language") (js "fr")
    (handleFilterChange (js "source") (js "bbc-news") initialFilters)
  = handleFilterChange (js "source") (js "bbc-news")
      (handleFilterChange (js "language") (js "fr") initialFilters).
Proof.
  apply (handleFilterChange_compose initialFilters (js "language")
           (js "source") (js "fr") (js "bbc-news")).
  vm_compute. discriminate.
Defined.

Lemma step_filters_names w e :
  from_components e ->
  (forall k : list N, is_Some (filters (app w) !! k) <-> k ∈ filter_names) ->
  forall k : list N,
    is_Some (filters (app (step w e)) !! k) <-> k ∈ filter_names.
Proof.
  intros He Hw.
  assert (Hfx : forall now w', filters (app (fetch_effect now w'))
                               = filters (app w')).
  { intros now w'. unfold fetch_effect.
    destruct (truthy (trim (searchQuery (app w')))); reflexivity. }
  destruct e as [now|now value|now filterType value|id o]; cbn [step].
  - rewrite Hfx. exact Hw.
  - case_bool_decide; [exact Hw|]. rewrite Hfx. exact Hw.
  - rewrite Hfx. cbn [with_app app filters]. unfold handleFilterChange.
    cbn [from_components] in He. intros k.
    destruct (decide (k = filterType)) as [->|Hne].
    + rewrite lookup_insert_eq. split; [intros _; exact He | intros _; eauto].
    + rewrite lookup_insert_ne by congruence. apply Hw.
  - case_bool_decide; [|exact Hw]. cbn [app].
    destruct o as [[l|m]|]; exact Hw.
Qed.

(** X11. However the search box and the three filter controls are used,
    and whatever answers arrive, the filter state keeps exactly its three
    properties [dateRange], [language] and [source]: none goes missing and
    no other is added. *)
Theorem filters_keep_their_names (es : list event) :
  Forall from_components es ->
  forall k : list N,
    is_Some (filters (app (run initialWorld es)) !! k) <-> k ∈ filter_names.
Proof.
  assert (Hrun : forall w,
            Forall from_components es ->
            (forall k : list N,
               is_Some (filters (app w) !! k) <-> k ∈ filter_names) ->
            forall k : list N,
              is_Some (filters (app (run w es)) !! k) <-> k ∈ filter_names).
  { induction es as [|e es' IH]; intros w Hes Hw; [exact Hw|].
    apply Forall_cons in Hes as [He Hes]. cbn [run foldl].
    apply IH; [exact Hes|]. apply step_filters_names; assumption. }
  intros Hes. apply Hrun; [exact Hes|].
  intros k. cbn [initialWorld app initialState filters]. unfold initialFilters.
  unfold filter_names. split.
  - intros Hk.
    destruct (decide (k = js "language")) as [->|H1]; [repeat constructor|].
    destruct (decide (k = js "dateRange")) as [->|H2]; [repeat constructor|].
    destruct (decide (k = js "source")) as [->|H3]; [repeat constructor|].
    rewrite !lookup_insert_ne, lookup_empty in Hk by congruence.
    destruct Hk as [? Hk]. discriminate Hk.
  - intros Hk. repeat (apply elem_of_cons in Hk as [->|Hk]);
      [| |
       |apply elem_of_nil in Hk; contradiction];
      [rewrite lookup_insert_ne by js_ne; rewrite lookup_insert_eq; eauto
      |rewrite lookup_insert_eq; eauto
      |rewrite !lookup_insert_ne by js_ne; rewrite lookup_insert_eq; eauto].
Qed.

Lemma filters_keep_their_names_witness :
  is_Some (filters (app (run initialWorld
                           [Mount 1793663999999;
                            FilterChange 1793664000000 (js "source")
                              (js "bbc-news")]))
             !! js "language").
Proof.
  apply (filters_keep_their_names
           [Mount 1793663999999;
            FilterChange 1793664000000 (js "source") (js "bbc-news")]).
  - repeat constructor.
  - repeat constructor.
Defined.

(** ** The routes, on any request *)

Lemma passed_on_Some (sentinel : bool) (v : option qvalue) (s : jsstring) :
  passed_on sentinel v = Some (Backend.VStr s) ->
  v = Some (QString s) /\ s <> [] /\ (sentinel = true -> s <> js "all").
Proof.
  unfold passed_on. destruct v as [[t|items|fields]|]; try discriminate.
  destruct (truthy t) eqn:Ht; [|discriminate]. cbn [andb].
  destruct sentinel; cbn [andb negb].
  - case_bool_decide as Hall; cbn [negb]; [discriminate|].
    intros [= <-]. split; [reflexivity|]. split; [|intros _; exact Hall].
    destruct t; [discriminate Ht | discriminate].
  - intros [= <-]. split; [reflexivity|]. split; [|discriminate].
    destruct t; [discriminate Ht | discriminate].
Qed.

Lemma passed_on_Other (sentinel : bool) (v : option qvalue) (x : qvalue) :
  passed_on sentinel v = Some (Backend.VOther x)
  <-> v = Some x /\ forall s, x <> QString s.
Proof.
  unfold passed_on. destruct v as [[t|items|fields]|]; split.
  - destruct (_ && _); discriminate.
  - intros [[= <-] Hx]. exfalso. exact (Hx t eq_refl).
  - intros [= <-]. split; [reflexivity | discriminate].
  - intros [[= <-] _]. reflexivity.
  - intros [= <-]. split; [reflexivity | discriminate].
  - intros [[= <-] _]. reflexivity.
  - discriminate.
  - intros [Hv _]. discriminate Hv.
Qed.

Lemma passed_on_VNum (sentinel : bool) (v : option qvalue) (n : Z) :
  passed_on sentinel v <> Some (Backend.VNum n).
Proof.
  unfold passed_on. destruct v as [[t|items|fields]|]; try discriminate.
  destruct (_ && _); discriminate.
Qed.

(** X12. Whatever query string [GET /api/news] is sent, the parameters it
    hands on are its own: [apiKey] is the server's and [pageSize] is 20
    even when the request names them, and no name outside the seven it
    knows is handed on. A text handed on under another name is not empty,
    is not ['all'] under [language] and [sources], and is the request's own
    text under that name, or the default ['publishedAt'] for [sortBy]. A
    name the request gives more than once or with brackets, which Express
    parses into an array or an object, passes every check whatever it
    holds: under [q], [language], [from], [sources] and [sortBy] the array
    or object is handed on as it is, and nothing else is handed on that is
    no text. *)
Theorem buildNewsAPIParams_whitelist (NEWS_API_KEY : jsstring)
    (query : gmap (list N) qvalue) :
  Backend.buildNewsAPIParams NEWS_API_KEY query !! js "apiKey"
    = Some (Backend.VStr NEWS_API_KEY)
  /\ Backend.buildNewsAPIParams NEWS_API_KEY query !! js "pageSize"
       = Some (Backend.VNum 20)
  /\ (forall k : jsstring, k ∉ upstream_names ->
        Backend.buildNewsAPIParams NEWS_API_KEY query !! k = None)
  /\ Backend.buildNewsAPIParams NEWS_API_KEY query !! js "language"
       <> Some (Backend.VStr (js "all"))
  /\ Backend.buildNewsAPIParams NEWS_API_KEY query !! js "sources"
       <> Some (Backend.VStr (js "all"))
  /\ (forall (k s : jsstring),
        k <> js "apiKey" ->
        Backend.buildNewsAPIParams NEWS_API_KEY query !! k
          = Some (Backend.VStr s) ->
        s <> []
        /\ (query !! k = Some (QString s)
            \/ (k = js "sortBy" /\ s = js "publishedAt")))
  /\ (forall (k : jsstring) (x : qvalue),
        Backend.buildNewsAPIParams NEWS_API_KEY query !! k
          = Some (Backend.VOther x)
        <-> k ∈ [js "q"; js "language"; js "from"; js "sources"; js "sortBy"]
            /\ query !! k = Some x /\ forall s, x <> QString s).
Proof.
  split; [apply buildNewsAPIParams_apiKey|].
  split; [apply buildNewsAPIParams_pageSize|].
  split; [intros k Hk; apply buildNewsAPIParams_other, Hk|].
  split.
  { rewrite buildNewsAPIParams_language. intros H.
    apply passed_on_Some in H as (_ & _ & Hall). apply Hall; reflexivity. }
  split.
  { rewrite buildNewsAPIParams_sources. intros H.
    apply passed_on_Some in H as (_ & _ & Hall). apply Hall; reflexivity. }
  assert (Hsort : forall x : qvalue,
            Backend.or_else_query (query !! js "sortBy") (js "publishedAt")
              = Backend.VOther x
            <-> query !! js "sortBy" = Some x /\ forall s, x <> QString s).
  { intros x. unfold Backend.or_else_query.
    destruct (query !! js "sortBy") as [[t|items|fields]|];
      cbn [truthy_query Backend.of_query]; split;
      try discriminate;
      try (intros [Hv _]; discriminate Hv);
      try (intros [= <-]; split; [reflexivity | discriminate]);
      try (intros [[= <-] _]; reflexivity).
    - destruct (truthy t); discriminate.
    - intros [[= <-] Hx]. exfalso. exact (Hx t eq_refl). }
  split.
  { intros k s Hkey.
    destruct (decide (k = js "q")) as [->|Hq].
    { rewrite buildNewsAPIParams_q. intros H.
      apply passed_on_Some in H as (Hv & Hs & _).
      split; [exact Hs | left; exact Hv]. }
    destruct (decide (k = js "language")) as [->|Hl].
    { rewrite buildNewsAPIParams_language. intros H.
      apply passed_on_Some in H as (Hv & Hs & _).
      split; [exact Hs | left; exact Hv]. }
    destruct (decide (k = js "from")) as [->|Hf].
    { rewrite buildNewsAPIParams_from. intros H.
      apply passed_on_Some in H as (Hv & Hs & _).
      split; [exact Hs | left; exact Hv]. }
    destruct (decide (k = js "sources")) as [->|Hs].
    { rewrite buildNewsAPIParams_sources. intros H.
      apply passed_on_Some in H as (Hv & Hs' & _).
      split; [exact Hs' | left; exact Hv]. }
    destruct (decide (k = js "sortBy")) as [->|Hsort'].
    { rewrite buildNewsAPIParams_sortBy. intros [= Hv].
      unfold Backend.or_else_query in Hv.
      destruct (query !! js "sortBy") as [[t|items|fields]|] eqn:Ht;
        cbn [truthy_query Backend.of_query] in Hv; try discriminate Hv.
      - destruct (truthy t) eqn:Htt; injection Hv as <-.
        + split; [destruct t; [discriminate Htt | discriminate]
                 | left; reflexivity].
        + split; [vm_compute; discriminate | right; split; reflexivity].
      - injection Hv as <-.
        split; [vm_compute; discriminate | right; split; reflexivity]. }
    destruct (decide (k = js "pageSize")) as [->|Hp].
    { rewrite buildNewsAPIParams_pageSize. discriminate. }
    rewrite buildNewsAPIParams_other; [discriminate|].
    unfold upstream_names. intros Hin.
    repeat (apply elem_of_cons in Hin as [Hin|Hin]; [congruence|]).
    apply elem_of_nil in Hin. exact Hin. }
  intros k x.
  destruct (decide (k = js "q")) as [->|Hq].
  { rewrite buildNewsAPIParams_q, passed_on_Other.
    split; [intros H; split; [repeat constructor | exact H] | intros [_ H]; exact H]. }
  destruct (decide (k = js "language")) as [->|Hl].
  { rewrite buildNewsAPIParams_language, passed_on_Other.
    split; [intros H; split; [repeat constructor | exact H] | intros [_ H]; exact H]. }
  destruct (decide (k = js "from")) as [->|Hf].
  { rewrite buildNewsAPIParams_from, passed_on_Other.
    split; [intros H; split; [repeat constructor | exact H] | intros [_ H]; exact H]. }
  destruct (decide (k = js "sources")) as [->|Hs].
  { rewrite buildNewsAPIParams_sources, passed_on_Other.
    split; [intros H; split; [repeat constructor | exact H] | intros [_ H]; exact H]. }
  destruct (decide (k = js "sortBy")) as [->|Hsort'].
  { rewrite buildNewsAPIParams_sortBy. split.
    - intros [= H]. apply Hsort in H. split; [repeat constructor | exact H].
    - intros [_ H]. apply Hsort in H. rewrite H. reflexivity. }
  split.
  - destruct (decide (k = js "pageSize")) as [->|Hp].
    { rewrite buildNewsAPIParams_pageSize. discriminate. }
    destruct (decide (k = js "apiKey")) as [->|Ha].
    { rewrite buildNewsAPIParams_apiKey. discriminate. }
    rewrite buildNewsAPIParams_other; [discriminate|].
    unfold upstream_names. intros Hin.
    repeat (apply elem_of_cons in Hin as [Hin|Hin]; [congruence|]).
    apply elem_of_nil in Hin. exact Hin.
  - intros [Hin _]. exfalso.
    repeat (apply elem_of_cons in Hin as [Hin|Hin]; [congruence|]).
    apply elem_of_nil in Hin. exact Hin.
Qed.

Lemma buildNewsAPIParams_whitelist_witness :
  Backend.buildNewsAPIParams (js "secret")
    (<[js "apiKey" := QString (js "mine")]>
       (<[js "pageSize" := QString (js "100")]> ∅))
    !! js "debug" = None.
Proof.
  apply (buildNewsAPIParams_whitelist (js "secret")).
  unfold upstream_names. intros Hin.
  repeat (apply elem_of_cons in Hin as [Hin|Hin];
          [vm_compute in Hin; discriminate Hin|]).
  apply elem_of_nil in Hin. exact Hin.
Defined.

(** The request [?language=all&language=all] reads as the array
    [['all', 'all']], which is handed on as the language. *)
Example buildNewsAPIParams_repeated_name :
  Backend.buildNewsAPIParams (js "secret")
    (<[js "language" := QArray [QString (js "all"); QString (js "all")]]> ∅)
    !! js "language"
  = Some (Backend.VOther (QArray [QString (js "all"); QString (js "all")])).
Proof. vm_compute. reflexivity. Qed.

(** The names the parameter object of the headlines route can carry. *)
Lemma topHeadlines_params_lookup (NEWS_API_KEY : jsstring)
    (query : gmap (list N) qvalue) (k : jsstring) :
  Routes.topHeadlines_params NEWS_API_KEY query !! k
  = if bool_decide (k = js "q") then passed_on false (query !! js "q")
    else if bool_decide (k = js "category")
    then passed_on false (query !! js "category")
    else if bool_decide (k = js "country")
    then passed_on false (query !! js "country")
    else if bool_decide (k = js "pageSize") then Some (Backend.VNum 20)
    else if bool_decide (k = js "apiKey")
    then Some (Backend.VStr NEWS_API_KEY)
    else None.
Proof.
  unfold Routes.topHeadlines_params. cbv zeta.
  case_bool_decide as Hq.
  { subst k. apply guarded_assign_plain.
    rewrite !guarded_assign_ne by js_ne. lookup_inserts. reflexivity. }
  rewrite guarded_assign_ne by congruence.
  case_bool_decide as Hcat.
  { subst k. apply guarded_assign_plain.
    rewrite !guarded_assign_ne by js_ne. lookup_inserts. reflexivity. }
  rewrite guarded_assign_ne by congruence.
  case_bool_decide as Hco.
  { subst k. apply guarded_assign_plain. lookup_inserts. reflexivity. }
  rewrite guarded_assign_ne by congruence.
  case_bool_decide as Hp; [subst k; apply lookup_insert_eq|].
  rewrite lookup_insert_ne by congruence.
  case_bool_decide as Ha; [subst k; apply lookup_insert_eq|].
  rewrite lookup_insert_ne by congruence. apply lookup_empty.
Qed.

(** X13. The headlines route hands on [country], [category] and [q] with
    the server's [apiKey] and [pageSize] 20, and nothing else: a
    [language], [sources], [from] or [sortBy] of the request is dropped,
    and so is an [apiKey] or [pageSize] of its own. Of the three, a name
    the request gives once is handed on exactly when its text is not empty,
    and then unchanged; a name it gives more than once or with brackets,
    an array or an object once Express has parsed it, is always handed on
    as it is, with whatever it holds. *)
Theorem topHeadlines_params_whitelist (NEWS_API_KEY : jsstring)
    (query : gmap (list N) qvalue) :
  (forall k : jsstring, k ∈ [js "country"; js "category"; js "q"] ->
     (forall s : jsstring,
        Routes.topHeadlines_params NEWS_API_KEY query !! k
          = Some (Backend.VStr s)
        <-> query !! k = Some (QString s) /\ s <> [])
     /\ (forall x : qvalue,
           Routes.topHeadlines_params NEWS_API_KEY query !! k
             = Some (Backend.VOther x)
           <-> query !! k = Some x /\ forall s, x <> QString s)
     /\ (forall n : Z,
           Routes.topHeadlines_params NEWS_API_KEY query !! k
             <> Some (Backend.VNum n)))
  /\ Routes.topHeadlines_params NEWS_API_KEY query !! js "apiKey"
       = Some (Backend.VStr NEWS_API_KEY)
  /\ Routes.topHeadlines_params NEWS_API_KEY query !! js "pageSize"
       = Some (Backend.VNum 20)
  /\ (forall k : jsstring,
        k ∉ [js "country"; js "category"; js "q"; js "apiKey"; js "pageSize"] ->
        Routes.topHeadlines_params NEWS_API_KEY query !! k = None).
Proof.
  assert (Hpass : forall (v : option qvalue) (s : jsstring),
            passed_on false v = Some (Backend.VStr s)
            <-> v = Some (QString s) /\ s <> []).
  { intros v s. split.
    - intros H. apply passed_on_Some in H as (Hv & Hs & _). split; assumption.
    - intros [-> Hs]. unfold passed_on. rewrite (truthy_nonempty s Hs).
      reflexivity. }
  split; [|split; [|split]].
  - intros k Hk.
    assert (Hlookup : Routes.topHeadlines_params NEWS_API_KEY query !! k
                      = passed_on false (query !! k)).
    { rewrite topHeadlines_params_lookup.
      repeat (apply elem_of_cons in Hk as [->|Hk]);
        [| | |apply elem_of_nil in Hk; contradiction];
        repeat (rewrite bool_decide_eq_false_2 by js_ne);
        rewrite bool_decide_eq_true_2 by reflexivity; reflexivity. }
    rewrite Hlookup. split; [|split].
    + intros s. apply Hpass.
    + intros x. apply passed_on_Other.
    + intros n. apply passed_on_VNum.
  - rewrite topHeadlines_params_lookup.
    repeat (rewrite bool_decide_eq_false_2 by js_ne).
    rewrite bool_decide_eq_true_2 by reflexivity. reflexivity.
  - rewrite topHeadlines_params_lookup.
    repeat (rewrite bool_decide_eq_false_2 by js_ne).
    rewrite bool_decide_eq_true_2 by reflexivity. reflexivity.
  - intros k Hk. rewrite topHeadlines_params_lookup.
    repeat (case_bool_decide;
            [subst k; exfalso; apply Hk; repeat constructor|]).
    reflexivity.
Qed.

Lemma topHeadlines_params_whitelist_witness :
  Routes.topHeadlines_params (js "secret")
    (<[js "country" := QString (js "us")]>
       (<[js "language" := QString (js "en")]> ∅))
    !! js "language" = None.
Proof.
  apply (topHeadlines_params_whitelist (js "secret")).
  intros Hin.
  repeat (apply elem_of_cons in Hin as [Hin|Hin];
          [vm_compute in Hin; discriminate Hin|]).
  apply elem_of_nil in Hin. exact Hin.
Defined.

(** The request [?country=&country=] reads as an array of two empty
    strings, which is handed on as the country. *)
Example topHeadlines_params_repeated_name :
  Routes.topHeadlines_params (js "secret")
    (<[js "country" := QArray [QString []; QString []]]> ∅)
    !! js "country"
  = Some (Backend.VOther (QArray [QString []; QString []])).
Proof. vm_compute. reflexivity. Qed.

(** ** A search, end to end *)

Lemma settle_error_text (text : jsstring) (st : AppState) :
  truthy text = true ->
  error (fetchNews_settle (Resolved (BodyOther (Some text))) st) = Some text
  /\ articles (fetchNews_settle (Resolved (BodyOther (Some text))) st)
     = articles st
  /\ render (fetchNews_settle (Resolved (BodyOther (Some text))) st)
     = [ErrorMessage text].
Proof.
  intros Ht.
  assert (He : error (fetchNews_settle (Resolved (BodyOther (Some text))) st)
               = Some text).
  { cbn [fetchNews_settle error or_else]. rewrite Ht. reflexivity. }
  split; [exact He|]. split; [reflexivity|].
  rewrite render_cases, He. cbn [fetchNews_settle loading truthy_prop default].
  rewrite Ht. reflexivity.
Qed.



(** An upstream answer with status 304: the route passes the status on,
    the answer goes out without its body, and the user reads the client's
    connection message. *)
Example upstream_not_modified :
  search_answer (js "secret") 1793663999999 (js "technology") initialFilters
    (fun _ => Routes.UpstreamRejected
                {| Backend.error_response :=
                     Some {| Backend.status := 304;
                             Backend.data := Backend.DataValue None |} |})
  = Some Rejected.
Proof. vm_compute. reflexivity. Qed.

(** X15. When the upstream call resolves with a body that has no
    [articles], the route does not relay it: the log line that reads their
    number throws, and the user is told, with status 500 and the code
    [NETWORK_ERROR], that NewsAPI could not be reached. *)
Theorem upstream_without_articles (NEWS_API_KEY : jsstring) (now : Z)
    (query : jsstring) (filters : gmap (list N) (list N))
    (everything : gmap (list N) Backend.value -> Routes.upstream)
    (data_totalResults : option Z) (st : AppState) :
  everything (queryBuilder NEWS_API_KEY now query filters)
    = Routes.UpstreamResolved None data_totalResults ->
  Routes.news NEWS_API_KEY
    (req_query (fetchNews_params now query filters)) everything
  = Some {| Routes.http_status := 500;
            Routes.http_body :=
              Routes.ErrorBody
                {| Backend.error_text :=
                     js "Unable to connect to NewsAPI. Check your internet connection.";
                   Backend.code := js "NETWORK_ERROR" |} |}
  /\ search_answer NEWS_API_KEY now query filters everything
     = Some (Resolved (BodyOther
          (Some (js "Unable to connect to NewsAPI. Check your internet connection."))))
  /\ render
       (fetchNews_settle
          (Resolved (BodyOther
             (Some (js "Unable to connect to NewsAPI. Check your internet connection."))))
          st)
     = [ErrorMessage
          (js "Unable to connect to NewsAPI. Check your internet connection.")].
Proof.
  unfold search_answer, Routes.news, queryBuilder. intros ->.
  split; [reflexivity|]. split; [reflexivity|].
  apply (settle_error_text
           (js "Unable to connect to NewsAPI. Check your internet connection.")).
  reflexivity.
Qed.

Lemma upstream_without_articles_witness :
  Routes.http_status
    <$> Routes.news (js "secret")
          (req_query (fetchNews_params 1793663999999 (js "technology")
                        initialFilters))
          (fun _ => Routes.UpstreamResolved None (Some 0))
  = Some 500.
Proof.
  destruct (upstream_without_articles (js "secret") 1793663999999
              (js "technology") initialFilters
              (fun _ => Routes.UpstreamResolved None (Some 0)) (Some 0)
              initialState eq_refl) as [-> _].
  reflexivity.
Defined.

(** X16. When the upstream call resolves with articles, the route answers
    200 and relays them with [totalResults] as they are, and the client
    stores exactly that list, in that order, and turns the spinner off; a
    list that is not empty is shown, unless an error text is on the
    screen. *)
Theorem upstream_articles_relayed (NEWS_API_KEY : jsstring) (now : Z)
    (query : jsstring) (filters : gmap (list N) (list N))
    (everything : gmap (list N) Backend.value -> Routes.upstream)
    (data_articles : list Article) (data_totalResults : option Z)
    (st : AppState) :
  everything (queryBuilder NEWS_API_KEY now query filters)
    = Routes.UpstreamResolved (Some data_articles) data_totalResults ->
  Routes.news NEWS_API_KEY
    (req_query (fetchNews_params now query filters)) everything
  = Some {| Routes.http_status := 200;
            Routes.http_body :=
              Routes.SuccessBody data_totalResults data_articles |}
  /\ search_answer NEWS_API_KEY now query filters everything
     = Some (Resolved (BodySuccess data_articles))
  /\ articles (fetchNews_settle (Resolved (BodySuccess data_articles)) st)
     = data_articles
  /\ loading (fetchNews_settle (Resolved (BodySuccess data_articles)) st)
     = false
  /\ (data_articles <> [] -> truthy_prop (error st) = false ->
        render (fetchNews_settle (Resolved (BodySuccess data_articles)) st)
        = [ResultsAndNewsList data_articles]).
Proof.
  unfold search_answer, Routes.news, queryBuilder. intros ->.
  cbn [Routes.relay].
  split; [reflexivity|]. split; [reflexivity|].
  split; [reflexivity|]. split; [reflexivity|].
  intros Hne Herr. rewrite render_cases.
  cbn [fetchNews_settle loading error articles].
  destruct data_articles as [|a l]; [congruence|].
  cbn [length Nat.eqb]. rewrite Herr. reflexivity.
Qed.

Lemma upstream_articles_relayed_witness :
  search_answer (js "secret") 1793663999999 (js "technology") initialFilters
    (fun _ => Routes.UpstreamResolved (Some [article_one]) (Some 1))
  = Some (Resolved (BodySuccess [article_one]))
  /\ render (fetchNews_settle (Resolved (BodySuccess [article_one]))
               initialState)
     = [ResultsAndNewsList [article_one]].
Proof.
  destruct (upstream_articles_relayed (js "secret") 1793663999999
              (js "technology") initialFilters
              (fun _ => Routes.UpstreamResolved (Some [article_one]) (Some 1))
              [article_one] (Some 1) initialState eq_refl)
    as (_ & Ho & _ & _ & Hrender).
  split; [exact Ho|].
  apply Hrender; [discriminate | reflexivity].
Defined.

(** ** The theme *)

Lemma initialDarkMode_effect (darkMode : bool) (p : Theme.Page) :
  Theme.initialDarkMode (Theme.darkMode_effect darkMode p) = Some darkMode.
Proof.
  unfold Theme.initialDarkMode, Theme.darkMode_effect.
  cbn [Theme.localStorage]. rewrite lookup_insert_eq.
  destruct darkMode; reflexivity.
Qed.

Lemma darkMode_effect_class (darkMode : bool) (p : Theme.Page) :
  js "dark-mode" ∈ Theme.classList (Theme.darkMode_effect darkMode p)
  <-> darkMode = true.
Proof.
  unfold Theme.darkMode_effect. cbn [Theme.classList].
  destruct darkMode.
  - rewrite elem_of_union, elem_of_singleton. split; [reflexivity|].
    intros _. left. reflexivity.
  - rewrite elem_of_difference, elem_of_singleton. split; [|discriminate].
    intros [_ Hne]. contradiction.
Qed.

Lemma darkMode_effect_frame (darkMode : bool) (p : Theme.Page) :
  (forall c : list N, c <> js "dark-mode" ->
     c ∈ Theme.classList (Theme.darkMode_effect darkMode p)
     <-> c ∈ Theme.classList p)
  /\ (forall k : list N, k <> js "darkMode" ->
        Theme.localStorage (Theme.darkMode_effect darkMode p) !! k
        = Theme.localStorage p !! k).
Proof.
  unfold Theme.darkMode_effect.
  cbn [Theme.classList Theme.localStorage]. split.
  - intros c Hc. destruct darkMode.
    + rewrite elem_of_union, elem_of_singleton. split; [|right; assumption].
      intros [Heq|Hin]; [contradiction | exact Hin].
    + rewrite elem_of_difference, elem_of_singleton. split; [intros [Hin _]; exact Hin|].
      intros Hin. split; assumption.
  - intros k Hk. apply lookup_insert_ne. congruence.
Qed.

(** X17. The theme survives a reload. With nothing saved, or an empty
    text, the component starts in light mode. After mounting in a mode and
    pressing the toggle any number of times, the mode is the starting one
    flipped that many times; the body has the class [dark-mode] exactly in
    dark mode, its other classes untouched; the storage holds the mode
    under [darkMode], its other entries untouched; and a component
    started from that storage starts in that very mode. *)
Theorem theme_persists (n : nat) (darkMode : bool) (p : Theme.Page) :
  (Theme.localStorage p !! js "darkMode" = None
   \/ Theme.localStorage p !! js "darkMode" = Some [] ->
   Theme.initialDarkMode p = Some false)
  /\ (Theme.toggled n darkMode p).1
     = (if Nat.even n then darkMode else negb darkMode)
  /\ (js "dark-mode" ∈ Theme.classList (Theme.toggled n darkMode p).2
      <-> (Theme.toggled n darkMode p).1 = true)
  /\ Theme.initialDarkMode (Theme.toggled n darkMode p).2
     = Some (Theme.toggled n darkMode p).1
  /\ (forall c : list N, c <> js "dark-mode" ->
        c ∈ Theme.classList (Theme.toggled n darkMode p).2
        <-> c ∈ Theme.classList p)
  /\ (forall k : list N, k <> js "darkMode" ->
        Theme.localStorage (Theme.toggled n darkMode p).2 !! k
        = Theme.localStorage p !! k).
Proof.
  split.
  { unfold Theme.initialDarkMode. intros [-> | ->]; reflexivity. }
  induction n as [|n IH].
  - cbn [Theme.toggled fst snd Nat.even].
    split; [reflexivity|]. split; [apply darkMode_effect_class|].
    split; [apply initialDarkMode_effect|]. apply darkMode_effect_frame.
  - destruct IH as (Hmode & _ & _ & Hclass & Hstore).
    cbn [Theme.toggled]. destruct (Theme.toggled n darkMode p) as [mode p'].
    cbn [fst snd] in *. split.
    { rewrite Hmode. unfold Theme.toggleDarkMode.
      rewrite Nat.even_succ, <- Nat.negb_even.
      destruct (Nat.even n), darkMode; reflexivity. }
    split; [apply darkMode_effect_class|].
    split; [apply initialDarkMode_effect|].
    destruct (darkMode_effect_frame (Theme.toggleDarkMode mode) p')
      as [Hc Hs].
    split.
    + intros c Hne. rewrite Hc by exact Hne. apply Hclass, Hne.
    + intros k Hne. rewrite Hs by exact Hne. apply Hstore, Hne.
Qed.

Lemma theme_persists_witness :
  Theme.initialDarkMode
    {| Theme.classList := ∅; Theme.localStorage := ∅ |} = Some false.
Proof.
  apply (theme_persists 0 false
           {| Theme.classList := ∅; Theme.localStorage := ∅ |}).
  left. reflexivity.
Defined.
